(** * stock_tracker: the browser scripts of the sheet list and settings pages

    A shallow embedding of [static/index.js] (the sheet list controller) and
    of the settings script, with the properties of their specification.

    The scripts are event handlers over the page's DOM.  The embedding keeps
    - the table rows as a store of row elements addressed by node identity
      (a handler's [row] variable is a reference captured at click time) and
      the list of nodes attached under [#sheets-table > tbody];
    - the visibility of the two notification banners;
    - the requests handed to [$.ajax], each with the callbacks registered
      for it, so that a response is a later event of its own;
    - what the handlers do to the outside: [alert], [location.reload],
      [window.open], [window.location] and [console.log].

    Ambient globals injected by the page (the endpoint URLs) and the
    viewer's time zone are the fields of [Env]. *)

From Stdlib Require Import ZArith Lia String Ascii List Bool.
From stdpp Require Import base list.

Open Scope Z_scope.

(** ** Dates: what [moment] and [Date] compute for the fixed format

    moment.js is a library the page loads; it is not part of the scripts.
    Its three calls in [convertToLocalDateTime] are modelled below from
    what the specification says of the timestamps: text in the fixed
    format [MM-DD-YYYY HH:mm], interpreted as UTC, converted to the
    viewer's local time zone and displayed in the same format. *)

Module Moment.

(** Days of the proleptic Gregorian calendar, counted from 1970-01-01
    (day 0), for a civil date [y]-[m]-[d] with [m] in 1..12. *)
Definition days_from_civil (y m d : Z) : Z :=
  let y' := if m <=? 2 then y - 1 else y in
  let era := y' / 400 in
  let yoe := y' - era * 400 in
  let mp := if 2 <? m then m - 3 else m + 9 in
  let doy := (153 * mp + 2) / 5 + d - 1 in
  let doe := yoe * 365 + yoe / 4 - yoe / 100 + doy in
  era * 146097 + doe - 719468.

(** The civil date (year, month 1..12, day of month) of a day number. *)
Definition civil_from_days (z : Z) : Z * Z * Z :=
  let z' := z + 719468 in
  let era := z' / 146097 in
  let doe := z' - era * 146097 in
  let yoe := (doe - doe / 1460 + doe / 36524 - doe / 146096) / 365 in
  let doy := doe - (365 * yoe + yoe / 4 - yoe / 100) in
  let mp := (5 * doy + 2) / 153 in
  let d := doy - (153 * mp + 2) / 5 + 1 in
  let m := if mp <? 10 then mp + 3 else mp - 9 in
  let y := yoe + era * 400 in
  (if m <=? 2 then y + 1 else y, m, d).

Definition isLeapYear (y : Z) : bool :=
  ((y mod 4 =? 0) && negb (y mod 100 =? 0)) || (y mod 400 =? 0).

Definition daysInMonth (y m : Z) : Z :=
  if m =? 2 then (if isLeapYear y then 29 else 28)
  else if (m =? 4) || (m =? 6) || (m =? 9) || (m =? 11) then 30
  else 31.

(** The fields the format [MM-DD-YYYY HH:mm] carries. *)
Record Fields : Type := mkFields {
  f_month : Z;
  f_day : Z;
  f_year : Z;
  f_hour : Z;
  f_minute : Z
}.

(** The fields a moment accepts without overflow: a real calendar date and
    a time of day. *)
Definition fields_ok (f : Fields) : bool :=
  (1 <=? f_month f) && (f_month f <=? 12) &&
  (1 <=? f_day f) && (f_day f <=? daysInMonth (f_year f) (f_month f)) &&
  (0 <=? f_hour f) && (f_hour f <=? 23) &&
  (0 <=? f_minute f) && (f_minute f <=? 59).

Definition msPerMinute : Z := 60000.
Definition msPerHour : Z := 3600000.
Definition msPerDay : Z := 86400000.

(** [Date.UTC(y, m - 1, d, h, min)]: milliseconds since the epoch. *)
Definition Date_UTC (f : Fields) : Z :=
  days_from_civil (f_year f) (f_month f) (f_day f) * msPerDay
  + f_hour f * msPerHour + f_minute f * msPerMinute.

(** The calendar fields of a time value [t] (milliseconds), as
    [getFullYear], [getMonth] + 1, [getDate], [getHours] and [getMinutes]
    read them once [t] is a local time value. *)
Definition fields_of_time (t : Z) : Fields :=
  let '(y, m, d) := civil_from_days (t / msPerDay) in
  let r := t mod msPerDay in
  mkFields m d y (r / msPerHour) ((r mod msPerHour) / msPerMinute).

(** *** Text *)

Definition digit_char (d : Z) : ascii := ascii_of_N (48 + Z.to_N d).

Definition is_digit (c : ascii) : bool :=
  let n := N_of_ascii c in (48 <=? n)%N && (n <=? 57)%N.

Definition digit_val (c : ascii) : Z := Z.of_N (N_of_ascii c) - 48.

(** ['' + n] for a natural number [n]: its decimal digits. *)
Fixpoint decimal_fuel (fuel : nat) (n : Z) : string :=
  match fuel with
  | O => String (digit_char (n mod 10)) EmptyString
  | S k =>
      if n <? 10 then String (digit_char n) EmptyString
      else decimal_fuel k (n / 10) ++ String (digit_char (n mod 10)) EmptyString
  end.

Definition decimal (n : Z) : string := decimal_fuel (Z.to_nat (Z.log2 n)) n.

Fixpoint zeros (k : nat) : string :=
  match k with
  | O => EmptyString
  | S k' => String "0" (zeros k')
  end.

(** moment's [zeroFill(number, targetLength)]: the sign of a negative
    number, then its absolute value padded with zeros on the left to at
    least [targetLength] digits. *)
Definition zeroFill (number : Z) (targetLength : nat) : string :=
  let absNumber := decimal (Z.abs number) in
  let zerosToFill := (targetLength - String.length absNumber)%nat in
  ((if (number <? 0)%Z then "-" else "") ++ zeros zerosToFill ++ absNumber)%string.

(** [format('MM-DD-YYYY HH:mm')] over the fields. *)
Definition render (f : Fields) : string :=
  (zeroFill (f_month f) 2 ++ "-" ++ zeroFill (f_day f) 2 ++ "-"
   ++ zeroFill (f_year f) 4 ++ " "
   ++ zeroFill (f_hour f) 2 ++ ":" ++ zeroFill (f_minute f) 2)%string.

Definition two_digits (a b : ascii) : option Z :=
  if is_digit a && is_digit b then Some (10 * digit_val a + digit_val b)
  else None.

Definition four_digits (a b c d : ascii) : option Z :=
  if is_digit a && is_digit b && is_digit c && is_digit d
  then Some (1000 * digit_val a + 100 * digit_val b + 10 * digit_val c + digit_val d)
  else None.

(** Reading a string laid out as [MM-DD-YYYY HH:mm]: two digits, a dash,
    two digits, a dash, four digits, a blank, two digits, a colon, two
    digits, and nothing else. *)
Definition read_fields (s : string) : option Fields :=
  match list_ascii_of_string s with
  | [m1; m2; s1; d1; d2; s2; y1; y2; y3; y4; s3; h1; h2; s4; n1; n2] =>
      if Ascii.eqb s1 "-" && Ascii.eqb s2 "-" && Ascii.eqb s3 " " && Ascii.eqb s4 ":"
      then
        match two_digits m1 m2, two_digits d1 d2, four_digits y1 y2 y3 y4,
              two_digits h1 h2, two_digits n1 n2 with
        | Some m, Some d, Some y, Some h, Some n => Some (mkFields m d y h n)
        | _, _, _, _, _ => None
        end
      else None
  | _ => None
  end.

(** Modelled from the spec: [moment.utc(s, 'MM-DD-YYYY HH:mm')] of
    moment.js, which is not under src/.  A string in the fixed format is
    interpreted as UTC: its fields, or an invalid moment ([None]) when a
    field overflows.  moment's parser is forgiving on other layouts; those
    are outside the format the page and the server exchange, and are
    invalid here. *)
Definition moment_utc (s : string) : option Fields :=
  match read_fields s with
  | Some f => if fields_ok f then Some f else None
  | None => None
  end.

(** Modelled from the spec: [.toDate()] of moment.js, which is not under
    src/.  The time value (milliseconds since the epoch) of the moment;
    [None] is the invalid date. *)
Definition toDate (m : option Fields) : option Z :=
  match m with
  | Some f => Some (Date_UTC f)
  | None => None
  end.

(** ECMAScript's [LocalTime(t) = t + LocalTZA(t)], with the viewer's zone
    given as the offset [tza] (milliseconds) in force at [t]. *)
Definition LocalTime (tza : Z -> Z) (t : Z) : Z := t + tza t.

(** Modelled from the spec: [moment(date).format('MM-DD-YYYY HH:mm')] of
    moment.js, which is not under src/.  The date converted to the
    viewer's local time zone and rendered in the same textual format; an
    invalid date renders as moment's [Invalid date]. *)
Definition moment_format (tza : Z -> Z) (date : option Z) : string :=
  match date with
  | Some t => render (fields_of_time (LocalTime tza t))
  | None => "Invalid date"%string
  end.

(** A string in the fixed format: laid out as [MM-DD-YYYY HH:mm] and
    naming a real date and time. *)
Definition valid_timestamp (s : string) : bool :=
  match moment_utc s with
  | Some _ => true
  | None => false
  end.

(** The zone of a viewer in UTC. *)
Definition utc_zone : Z -> Z := fun _ => 0.

End Moment.

(** ** What both scripts use of jQuery and JSON *)

Module JQuery.

(** The JSON values the scripts build. *)
#[warnings="-register-all"]
Inductive Json : Type :=
| JBool (b : bool)
| JString (s : string)
| JObject (members : list (string * Json)).

Definition dquote : ascii := "034"%char.
Definition backslash : ascii := "092"%char.

Definition hex_digit (n : N) : ascii :=
  if (n <? 10)%N then ascii_of_N (48 + n) else ascii_of_N (87 + n).

(** One character of a JSON string literal. *)
Definition escape_char (c : ascii) : string :=
  let n := N_of_ascii c in
  if Ascii.eqb c dquote then String backslash (String dquote EmptyString)
  else if Ascii.eqb c backslash then String backslash (String backslash EmptyString)
  else if (n =? 8)%N then String backslash "b"
  else if (n =? 9)%N then String backslash "t"
  else if (n =? 10)%N then String backslash "n"
  else if (n =? 12)%N then String backslash "f"
  else if (n =? 13)%N then String backslash "r"
  else if (n <? 32)%N then
    String backslash
      (String "u" (String "0" (String "0"
        (String (hex_digit (n / 16)) (String (hex_digit (n mod 16)) EmptyString)))))
  else String c EmptyString.

Fixpoint escape (s : string) : string :=
  match s with
  | EmptyString => EmptyString
  | String c rest => (escape_char c ++ escape rest)%string
  end.

Definition quote (s : string) : string :=
  (String dquote (escape s) ++ String dquote EmptyString)%string.

(** [JSON.stringify] on those values. *)
Fixpoint JSON_stringify (j : Json) : string :=
  match j with
  | JBool b => if b then "true"%string else "false"%string
  | JString s => quote s
  | JObject members =>
      ("{" ++
       (fix props (ms : list (string * Json)) : string :=
          match ms with
          | [] => EmptyString
          | (k, v) :: [] => quote k ++ ":" ++ JSON_stringify v
          | (k, v) :: rest => quote k ++ ":" ++ JSON_stringify v ++ "," ++ props rest
          end) members
       ++ "}")%string
  end.

(** The settings object of one [$.ajax] call; [C] is the type of the
    closures a script registers as callbacks.  A field the call leaves out
    is [None]. *)
Record Ajax (C : Type) : Type := mkAjax {
  type : string;
  url : string;
  data : option string;
  contentType : option string;
  dataType : option string;
  success : option C;
  error : option C
}.

Arguments mkAjax {C}.
Arguments type {C}.
Arguments url {C}.
Arguments data {C}.
Arguments contentType {C}.
Arguments dataType {C}.
Arguments success {C}.
Arguments error {C}.

(** Calling a handler once per binding: [$(el).click(h)] called [k] times
    on an element makes one click run [h] [k] times. *)
Fixpoint trigger {S : Type} (bound : nat) (handler : S -> S) (s : S) : S :=
  match bound with
  | O => s
  | S k => trigger k handler (handler s)
  end.

End JQuery.

(** ** The sheet list page: [static/index.js] *)

Module Index.
Import JQuery.

(** Globals the page injects before the script runs, and the viewer's
    time zone ([LocalTZA t]: the offset from UTC, in milliseconds, in
    force at the time value [t]). *)
Record Env : Type := mkEnv {
  url_create : string;
  url_sync : string;
  url_delete : string;
  LocalTZA : Z -> Z
}.

(** A DOM node of the page: a reference to one row element. *)
Abbreviation node := nat (only parsing).

(** A row element [<tr ssheet-id=...>]: its attribute, the text of its
    [.sheet-title] and [.utc-datetime] cells, and how many click handlers
    are bound to each of its three buttons. *)
Record Row : Type := mkRow {
  ssheet_id : string;
  sheet_title : string;
  utc_datetime : string;
  visit_sheet : nat;
  sync_sheet : nat;
  delete_sheet : nat
}.

(** Row markup as the server renders it, in the page or in the
    [row_to_insert] field of a create response. *)
Record Markup : Type := mkMarkup {
  m_ssheet_id : string;
  m_title : string;
  m_datetime : string
}.

(** [$(markup)]: the element built from markup; no handler is bound yet. *)
Definition element (m : Markup) : Row :=
  mkRow (m_ssheet_id m) (m_title m) (m_datetime m) 0 0 0.

(** The closures [index.js] passes to [$.ajax].  The sync and delete
    callbacks close over the [row] found at click time. *)
Inductive Callback : Type :=
| createSuccess
| syncSuccess (row : node)
| deleteSuccess (row : node)
| accessError.

(** The page.  [elements] holds every row element the script can reach,
    attached or not, indexed by node; [tbody] lists the nodes that are
    children of [#sheets-table > tbody], in document order. *)
Record Page : Type := mkPage {
  elements : list Row;
  tbody : list node;
  notification_add : bool;
  notification_edit_sync : bool;
  create_sheet_button : nat;
  ajax : list (Ajax Callback);
  alerts : list string;
  reloads : nat;
  windows : list (string * string)
}.

Definition set_elements (els : list Row) (p : Page) : Page :=
  mkPage els (tbody p) (notification_add p) (notification_edit_sync p)
    (create_sheet_button p) (ajax p) (alerts p) (reloads p) (windows p).

Definition set_tbody (tb : list node) (p : Page) : Page :=
  mkPage (elements p) tb (notification_add p) (notification_edit_sync p)
    (create_sheet_button p) (ajax p) (alerts p) (reloads p) (windows p).

Definition set_notification_add (b : bool) (p : Page) : Page :=
  mkPage (elements p) (tbody p) b (notification_edit_sync p)
    (create_sheet_button p) (ajax p) (alerts p) (reloads p) (windows p).

Definition set_notification_edit_sync (b : bool) (p : Page) : Page :=
  mkPage (elements p) (tbody p) (notification_add p) b
    (create_sheet_button p) (ajax p) (alerts p) (reloads p) (windows p).

Definition set_create_sheet_button (k : nat) (p : Page) : Page :=
  mkPage (elements p) (tbody p) (notification_add p) (notification_edit_sync p)
    k (ajax p) (alerts p) (reloads p) (windows p).

Definition set_ajax (a : list (Ajax Callback)) (p : Page) : Page :=
  mkPage (elements p) (tbody p) (notification_add p) (notification_edit_sync p)
    (create_sheet_button p) a (alerts p) (reloads p) (windows p).

(** [alert(message)] *)
Definition alert (message : string) (p : Page) : Page :=
  mkPage (elements p) (tbody p) (notification_add p) (notification_edit_sync p)
    (create_sheet_button p) (ajax p) (alerts p ++ [message]) (reloads p) (windows p).

(** [location.reload(true)] *)
Definition location_reload (p : Page) : Page :=
  mkPage (elements p) (tbody p) (notification_add p) (notification_edit_sync p)
    (create_sheet_button p) (ajax p) (alerts p) (S (reloads p)) (windows p).

(** [window.open(url, target)] *)
Definition window_open (u target : string) (p : Page) : Page :=
  mkPage (elements p) (tbody p) (notification_add p) (notification_edit_sync p)
    (create_sheet_button p) (ajax p) (alerts p) (reloads p) (windows p ++ [(u, target)]).

(** [$.ajax(settings)]: the request is in flight; nothing else changes
    until its response arrives. *)
Definition jquery_ajax (settings : Ajax Callback) (p : Page) : Page :=
  set_ajax (ajax p ++ [settings]) p.

(** [row.attr('ssheet-id')].  A handler's [row] is the row of the button
    that was clicked, so it is a node of [elements]; for any other number
    the model answers the empty string. *)
Definition attr_ssheet_id (row : node) (p : Page) : string :=
  match elements p !! row with
  | Some r => ssheet_id r
  | None => EmptyString
  end.

Definition set_utc_datetime (t : string) (r : Row) : Row :=
  mkRow (ssheet_id r) (sheet_title r) t (visit_sheet r) (sync_sheet r) (delete_sheet r).

Definition set_sheet_title (t : string) (r : Row) : Row :=
  mkRow (ssheet_id r) t (utc_datetime r) (visit_sheet r) (sync_sheet r) (delete_sheet r).

(** The three [.click(handler)] calls of [wireRowClickHandlers] on one row. *)
Definition bind_clicks (r : Row) : Row :=
  mkRow (ssheet_id r) (sheet_title r) (utc_datetime r)
    (S (visit_sheet r)) (S (sync_sheet r)) (S (delete_sheet r)).

(** What [.remove()] does to the handlers bound to a row: jQuery drops
    them with the element. *)
Definition unbind_clicks (r : Row) : Row :=
  mkRow (ssheet_id r) (sheet_title r) (utc_datetime r) 0 0 0.

(** [$(sel).find('.utc-datetime').text(f)]: every matched cell, in
    document order, gets [f index oldText]. *)
Fixpoint text_each (f : nat -> string -> string) (index : nat) (sel : list node)
    (els : list Row) : list Row :=
  match sel with
  | [] => els
  | n :: sel' =>
      text_each f (S index) sel'
        (alter (fun r => set_utc_datetime (f index (utc_datetime r)) r) n els)
  end.

Definition utc_datetime_text_fn (f : nat -> string -> string) (sel : list node)
    (p : Page) : Page :=
  set_elements (text_each f 0 sel (elements p)) p.

(** [row.find('.utc-datetime').text(value)] *)
Definition utc_datetime_text (value : string) (row : node) (p : Page) : Page :=
  set_elements (alter (set_utc_datetime value) row (elements p)) p.

(** [row.find('.sheet-title').text(value)] *)
Definition sheet_title_text (value : string) (row : node) (p : Page) : Page :=
  set_elements (alter (set_sheet_title value) row (elements p)) p.

Definition convertToLocalDateTime (env : Env) (old_s : string) : string :=
  let date := Moment.toDate (Moment.moment_utc old_s) in
  let new_s := Moment.moment_format (LocalTZA env) date in
  new_s.

Definition updateDateTimes (env : Env) (index : nat) (datetime_string : string) : string :=
  convertToLocalDateTime env datetime_string.

Definition wireRowClickHandlers (el : list node) (p : Page) : Page :=
  set_elements (foldl (fun els n => alter bind_clicks n els) (elements p) el) p.

Definition informUserOfSheetAccessError (statusCode : Z) (p : Page) : Page :=
  if statusCode =? 401 then location_reload p
  else
    let message := "Could not perform operation."%string in
    let message :=
      if statusCode =? 403 then "You are not authorized to modify this sheet."%string
      else if statusCode =? 404 then "Sheet was not found."%string
      else if statusCode =? 400 then
        "Sheet formatted incorrectly. Make sure there are no blank rows and the first row is a header."%string
      else message in
    alert message p.

Definition processNotificationsOnLoadOnDelete (p : Page) : Page :=
  let rowCount := length (tbody p) in
  if (rowCount =? 0)%nat then set_notification_add true p else p.

Definition processNotificationsOnCreate (p : Page) : Page :=
  let rowCount := length (tbody p) in
  let p :=
    if (rowCount =? 1)%nat then set_notification_edit_sync true p
    else set_notification_edit_sync false p in
  set_notification_add false p.

Definition processNotificationsOnSync (p : Page) : Page :=
  set_notification_edit_sync false p.

(** *** The handlers, and the callbacks of their requests *)

Definition createOnClick (env : Env) (p : Page) : Page :=
  jquery_ajax
    (mkAjax "GET" (url_create env) None None (Some "json"%string)
       (Some createSuccess) (Some accessError)) p.

(** The [success] callback of [createOnClick], on [data['row_to_insert']].
    The new element's node is the next free one. *)
Definition createOnClick_success (env : Env) (row_to_insert : Markup) (p : Page) : Page :=
  let row := length (elements p) in
  let p := set_elements (elements p ++ [element row_to_insert]) p in
  let p := set_tbody (tbody p ++ [row]) p in
  let p := utc_datetime_text_fn (updateDateTimes env) [row] p in
  let p := wireRowClickHandlers [row] p in
  processNotificationsOnCreate p.

Definition visitSheetOnClick (row : node) (p : Page) : Page :=
  let url_visit :=
    ("https://docs.google.com/spreadsheets/d/" ++ attr_ssheet_id row p)%string in
  window_open url_visit "_blank" p.

Definition syncSheetOnClick (env : Env) (row : node) (p : Page) : Page :=
  jquery_ajax
    (mkAjax "POST" (url_sync env)
       (Some (JSON_stringify (JObject [("ssheet_id"%string, JString (attr_ssheet_id row p))])))
       (Some "application/json"%string) (Some "json"%string)
       (Some (syncSuccess row)) (Some accessError)) p.

(** The [success] callback of [syncSheetOnClick], on [data['datetime']]
    and on [data['title']] when ['title' in data]. *)
Definition syncSheetOnClick_success (env : Env) (row : node)
    (datetime : string) (title : option string) (p : Page) : Page :=
  let new_time := convertToLocalDateTime env datetime in
  let p := utc_datetime_text new_time row p in
  let p :=
    match title with
    | Some t => sheet_title_text t row p
    | None => p
    end in
  processNotificationsOnSync p.

Definition deleteSheetOnClick (env : Env) (row : node) (p : Page) : Page :=
  jquery_ajax
    (mkAjax "POST" (url_delete env)
       (Some (JSON_stringify (JObject [("ssheet_id"%string, JString (attr_ssheet_id row p))])))
       (Some "application/json"%string) (Some "json"%string)
       (Some (deleteSuccess row)) (Some accessError)) p.

(** [$(row).remove()]: the node leaves the table (nothing happens to a
    node that already left it) and its handlers are dropped. *)
Definition remove (row : node) (p : Page) : Page :=
  let p := set_elements (alter unbind_clicks row (elements p)) p in
  set_tbody (filter (fun n => n ≠ row) (tbody p)) p.

(** The [success] callback of [deleteSheetOnClick]. *)
Definition deleteSheetOnClick_success (row : node) (p : Page) : Page :=
  let p := remove row p in
  processNotificationsOnLoadOnDelete p.

(** The [error] callback of all three requests, on [xhr['status']]. *)
Definition ajax_error (status : Z) (p : Page) : Page :=
  informUserOfSheetAccessError status p.

(** [$(document).ready(...)] *)
Definition ready (env : Env) (p : Page) : Page :=
  let p := utc_datetime_text_fn (updateDateTimes env) (tbody p) p in
  let p := processNotificationsOnLoadOnDelete p in
  let p := set_create_sheet_button (S (create_sheet_button p)) p in
  wireRowClickHandlers (tbody p) p.

(** *** The page as an event-driven machine *)

(** The parsed body of a successful response, by endpoint (the delete
    callback ignores it). *)
Inductive Data : Type :=
| CreateData (row_to_insert : Markup)
| SyncData (datetime : string) (title : option string)
| AnyData.

Inductive Event : Type :=
| Ready
| ClickCreate
| ClickVisit (row : node)
| ClickSync (row : node)
| ClickDelete (row : node)
| Done (i : nat) (data : Data)
| Fail (i : nat) (status : Z).

Arguments ClickVisit row%_nat.
Arguments ClickSync row%_nat.
Arguments ClickDelete row%_nat.
Arguments Done i%_nat data.
Arguments Fail i%_nat status%_Z.

(** Running a [success] closure on a response of its endpoint's shape; a
    response of another shape is outside the interface and runs nothing. *)
Definition on_success (env : Env) (cb : Callback) (data : Data) (p : Page) : Page :=
  match cb, data with
  | createSuccess, CreateData m => createOnClick_success env m p
  | syncSuccess row, SyncData datetime title =>
      syncSheetOnClick_success env row datetime title p
  | deleteSuccess row, _ => deleteSheetOnClick_success row p
  | _, _ => p
  end.

Definition on_error (cb : Callback) (status : Z) (p : Page) : Page :=
  match cb with
  | accessError => ajax_error status p
  | _ => p
  end.

(** A click on a button of [row] reaches the handlers bound to it; only
    rows attached to the table can be clicked. *)
Definition click_row (bound : Row -> nat) (handler : node -> Page -> Page)
    (row : node) (p : Page) : Page :=
  if decide (row ∈ tbody p) then
    match elements p !! row with
    | Some r => trigger (bound r) (handler row) p
    | None => p
    end
  else p.

(** The request in flight at position [i] completes: it leaves the list
    and the callback registered for the outcome, if any, runs. *)
Definition complete (i : nat) (pick : Ajax Callback -> option Callback)
    (run_cb : Callback -> Page -> Page) (p : Page) : Page :=
  match ajax p !! i with
  | Some req =>
      let p' := set_ajax (delete i (ajax p)) p in
      match pick req with
      | Some cb => run_cb cb p'
      | None => p'
      end
  | None => p
  end.

Definition step (env : Env) (e : Event) (p : Page) : Page :=
  match e with
  | Ready => ready env p
  | ClickCreate => trigger (create_sheet_button p) (createOnClick env) p
  | ClickVisit row => click_row visit_sheet visitSheetOnClick row p
  | ClickSync row => click_row sync_sheet (syncSheetOnClick env) row p
  | ClickDelete row => click_row delete_sheet (deleteSheetOnClick env) row p
  | Done i data => complete i success (fun cb => on_success env cb data) p
  | Fail i status => complete i error (fun cb => on_error cb status) p
  end.

Definition run (env : Env) (events : list Event) (p : Page) : Page :=
  foldl (fun q e => step env e q) p events.

(** The page as the server renders it, before the script runs: the rows
    of the table and whether each banner is displayed.  (The template is
    not part of the scripts; it is a parameter here.) *)
Definition served (rows : list Markup) (add edit_sync : bool) : Page :=
  mkPage (element <$> rows) (seq 0 (length rows)) add edit_sync 0 [] [] 0 [].

(** The specification's words for the banners: a function of the row
    count alone, (add banner shown, edit/sync banner shown). *)
Definition spec_banner_state (rowCount : nat) : bool * bool :=
  ((rowCount =? 0)%nat, (rowCount =? 1)%nat).

Definition banners (p : Page) : bool * bool :=
  (notification_add p, notification_edit_sync p).

(** What the user sees of the sheet list: the rows, the table and the two
    banners (not the requests in flight, nor the alerts already shown). *)
Definition displayed (p : Page) : list Row * list node * bool * bool :=
  (elements p, tbody p, notification_add p, notification_edit_sync p).

(** What one step can do to the page [p]: leave what is displayed as it
    is (clicks, failures, responses nobody waits for), run the page-load
    handler, or run one of the three success callbacks, for a request in
    flight, on a page that displays what [p] does. *)
Inductive Effect (env : Env) (p : Page) (e : Event) : Page -> Prop :=
| effect_none (p' : Page) :
    displayed p' = displayed p -> Effect env p e p'
| effect_ready :
    e = Ready -> Effect env p e (ready env p)
| effect_create (i : nat) (req : Ajax Callback) (m : Markup) (q : Page) :
    e = Done i (CreateData m) -> ajax p !! i = Some req ->
    success req = Some createSuccess -> displayed q = displayed p ->
    Effect env p e (createOnClick_success env m q)
| effect_sync (i : nat) (req : Ajax Callback) (row : node) (datetime : string)
    (title : option string) (q : Page) :
    e = Done i (SyncData datetime title) -> ajax p !! i = Some req ->
    success req = Some (syncSuccess row) -> displayed q = displayed p ->
    Effect env p e (syncSheetOnClick_success env row datetime title q)
| effect_delete (i : nat) (req : Ajax Callback) (row : node) (data : Data) (q : Page) :
    e = Done i data -> ajax p !! i = Some req ->
    success req = Some (deleteSuccess row) -> displayed q = displayed p ->
    Effect env p e (deleteSheetOnClick_success row q).

(** What every run keeps true: the table lists distinct row elements of
    the page, and the add banner is displayed over an empty table only. *)
Record well_formed (p : Page) : Prop := mk_well_formed {
  wf_nodup : NoDup (tbody p);
  wf_bound : forall n, n ∈ tbody p -> (n < length (elements p))%nat;
  wf_add : notification_add p = true -> tbody p = []
}.

(** The message [informUserOfSheetAccessError] shows for a status code
    other than 401, as the specification lists them. *)
Definition spec_message (statusCode : Z) : string :=
  if statusCode =? 403 then "You are not authorized to modify this sheet."%string
  else if statusCode =? 404 then "Sheet was not found."%string
  else if statusCode =? 400 then
    "Sheet formatted incorrectly. Make sure there are no blank rows and the first row is a header."%string
  else "Could not perform operation."%string.

(** Each button of each row of the table has exactly one handler, and so
    has the create button; the table lists distinct row elements. *)
Record wired (p : Page) : Prop := mk_wired {
  wired_nodup : NoDup (tbody p);
  wired_rows : forall n, n ∈ tbody p ->
    exists r, elements p !! n = Some r /\
      visit_sheet r = 1%nat /\ sync_sheet r = 1%nat /\ delete_sheet r = 1%nat;
  wired_create : create_sheet_button p = 1%nat
}.

(** Every request in flight has both callbacks of [index.js]. *)
Definition with_callbacks (req : Ajax Callback) : Prop :=
  error req = Some accessError /\ success req <> None.

(** The row a successful sync leaves in place of [r]. *)
Definition synced (env : Env) (datetime : string) (title : option string) (r : Row) : Row :=
  mkRow (ssheet_id r)
    (match title with Some t => t | None => sheet_title r end)
    (convertToLocalDateTime env datetime)
    (visit_sheet r) (sync_sheet r) (delete_sheet r).

(** The row element page load makes of served markup. *)
Definition loaded (env : Env) (m : Markup) : Row :=
  mkRow (m_ssheet_id m) (m_title m) (convertToLocalDateTime env (m_datetime m)) 1 1 1.

(** An environment for examples: a viewer five hours behind UTC. *)
Definition example_env : Env :=
  mkEnv "/create" "/sync" "/delete" (fun _ => -18000000).

Definition example_utc_env : Env :=
  mkEnv "/create" "/sync" "/delete" Moment.utc_zone.

Definition example_markup : Markup :=
  mkMarkup "abc123" "Tech stocks" "01-02-2024 10:00".

Definition example_markup' : Markup :=
  mkMarkup "def456" "Energy" "03-10-2024 02:30".

(** A first visit: an empty table, then one sheet created. *)
Definition example_created : Page :=
  run example_env [Ready; ClickCreate; Done 0 (CreateData example_markup)]
    (served [] false false).

(** The same, then that sheet synced. *)
Definition example_synced : Page :=
  run example_env
    [ClickSync 0; Done 0 (SyncData "01-05-2024 04:15" (Some "Tech"%string))]
    example_created.

(** The same, then that sheet deleted. *)
Definition example_deleted : Page :=
  run example_env [ClickDelete 0; Done 0 AnyData] example_created.

(** A first visit, the create request still in flight. *)
Definition example_creating : Page :=
  run example_env [Ready; ClickCreate] (served [] false false).

(** A page served with two sheets, one of them about to be deleted. *)
Definition example_two_rows : Page :=
  run example_env [Ready; ClickDelete 1]
    (served [example_markup; example_markup'] false false).

End Index.

(** ** The settings page *)

Module Settings.
Import JQuery.

Record Env : Type := mkEnv {
  url_settings_post : string;
  url_index : string
}.

(** The settings page: the [#notify] checkbox, the handlers bound to the
    two buttons, the console, the requests in flight (the script
    registers no callback, so the closure type is empty) and where the
    window was last sent. *)
Record Page : Type := mkPage {
  notify : bool;
  submit_button : nat;
  cancel_button : nat;
  console : list string;
  ajax : list (Ajax Empty_set);
  location : option string
}.

Definition console_log (line : string) (p : Page) : Page :=
  mkPage (notify p) (submit_button p) (cancel_button p) (console p ++ [line])
    (ajax p) (location p).

Definition jquery_ajax (settings : Ajax Empty_set) (p : Page) : Page :=
  mkPage (notify p) (submit_button p) (cancel_button p) (console p)
    (ajax p ++ [settings]) (location p).

(** [window.location = url] *)
Definition set_location (u : string) (p : Page) : Page :=
  mkPage (notify p) (submit_button p) (cancel_button p) (console p)
    (ajax p) (Some u).

Definition string_of_bool (b : bool) : string :=
  if b then "true"%string else "false"%string.

Definition submitOnClick (env : Env) (p : Page) : Page :=
  let p := console_log "Going" p in
  let p := console_log (string_of_bool (notify p)) p in
  let p :=
    jquery_ajax
      (mkAjax "POST" (url_settings_post env)
         (Some (JSON_stringify (JObject [("notify"%string, JBool (notify p))])))
         (Some "application/json"%string) None None None) p in
  set_location (url_index env) p.

Definition cancelOnClick (env : Env) (p : Page) : Page :=
  let p := console_log "Canceling" p in
  set_location (url_index env) p.

Definition ready (p : Page) : Page :=
  mkPage (notify p) (S (submit_button p)) (S (cancel_button p)) (console p)
    (ajax p) (location p).

(** How a request ends. *)
Inductive Outcome : Type :=
| Succeeded
| Failed (status : Z).

Inductive Event : Type :=
| Ready
| Toggle
| ClickSubmit
| ClickCancel
| Respond (i : nat) (o : Outcome).

Arguments Respond i%_nat o.

(** The request at position [i] ends: it leaves the list, and the
    callback registered for the outcome runs.  No closure exists on this
    page, so nothing can run. *)
Definition complete (i : nat) (o : Outcome) (p : Page) : Page :=
  match ajax p !! i with
  | Some req =>
      let p' :=
        mkPage (notify p) (submit_button p) (cancel_button p) (console p)
          (delete i (ajax p)) (location p) in
      let registered : option Empty_set :=
        match o with
        | Succeeded => success req
        | Failed _ => error req
        end in
      match registered with
      | Some cb => match cb with end
      | None => p'
      end
  | None => p
  end.

Definition step (env : Env) (e : Event) (p : Page) : Page :=
  match e with
  | Ready => ready p
  | Toggle =>
      mkPage (negb (notify p)) (submit_button p) (cancel_button p) (console p)
        (ajax p) (location p)
  | ClickSubmit => trigger (submit_button p) (submitOnClick env) p
  | ClickCancel => trigger (cancel_button p) (cancelOnClick env) p
  | Respond i o => complete i o p
  end.

Definition served (checked : bool) : Page :=
  mkPage checked 0 0 [] [] None.

Definition run (env : Env) (events : list Event) (p : Page) : Page :=
  foldl (fun q e => step env e q) p events.

(** The one request [submitOnClick] sends when the box is [checked]. *)
Definition settings_post (env : Env) (checked : bool) : Ajax Empty_set :=
  mkAjax "POST" (url_settings_post env)
    (Some (JSON_stringify (JObject [("notify"%string, JBool checked)])))
    (Some "application/json"%string) None None None.

Definition example_env : Env := mkEnv "/settings" "/".

End Settings.

(** * Properties *)

(** ** The calendar *)

Section Calendar.
Import Moment.

Lemma isLeapYear_spec (y : Z) :
  isLeapYear y = true <->
  y mod 4 = 0 /\ (y mod 100 <> 0 \/ y mod 400 = 0).
Proof.
  unfold isLeapYear.
  rewrite orb_true_iff, andb_true_iff, negb_true_iff, !Z.eqb_eq, Z.eqb_neq.
  split; [intros [[? ?]|?]|intros [? [?|?]]]; try tauto.
  split; [|tauto]. Z.div_mod_to_equations; lia.
Qed.

(** What [d <= daysInMonth y m] says, month by month. *)
Lemma daysInMonth_bound (y m d : Z) :
  1 <= m <= 12 ->
  (d <= daysInMonth y m <->
   d <= 31 /\ (m = 4 \/ m = 6 \/ m = 9 \/ m = 11 -> d <= 30) /\
   (m = 2 -> d <= 29 /\ (d = 29 -> isLeapYear y = true))).
Proof.
  intros Hm.
  assert (m = 1 \/ m = 2 \/ m = 3 \/ m = 4 \/ m = 5 \/ m = 6 \/ m = 7 \/
          m = 8 \/ m = 9 \/ m = 10 \/ m = 11 \/ m = 12) as Hcase by lia.
  unfold daysInMonth.
  repeat (destruct Hcase as [->|Hcase]; [cbn; try destruct (isLeapYear y); intuition (try lia; try discriminate)|]).
  subst m; cbn; intuition (try lia; try discriminate).
Qed.

Lemma year_of_era (yoe doy : Z) :
  0 <= yoe < 400 -> 0 <= doy <= 365 ->
  (doy = 365 -> (yoe + 1) mod 4 = 0 /\ ((yoe + 1) mod 100 <> 0 \/ (yoe + 1) mod 400 = 0)) ->
  let doe := yoe * 365 + yoe / 4 - yoe / 100 + doy in
  0 <= doe < 146097 /\
  (doe - doe / 1460 + doe / 36524 - doe / 146096) / 365 = yoe.
Proof.
  intros Hy Hd Hleap doe. subst doe.
  Z.div_mod_to_equations; lia.
Qed.

Lemma month_of_year (m d : Z) :
  1 <= m <= 12 -> 1 <= d <= 31 ->
  (m = 4 \/ m = 6 \/ m = 9 \/ m = 11 -> d <= 30) -> (m = 2 -> d <= 29) ->
  let mp := if 2 <? m then m - 3 else m + 9 in
  let doy := (153 * mp + 2) / 5 + d - 1 in
  let mp' := (5 * doy + 2) / 153 in
  0 <= mp <= 11 /\ 0 <= doy <= 365 /\ (doy = 365 -> m = 2 /\ d = 29) /\
  mp' = mp /\ doy - (153 * mp' + 2) / 5 + 1 = d.
Proof.
  intros Hm Hd H30 H29 mp doy mp'.
  assert (mp' = mp) as E.
  { subst mp' doy mp.
    destruct (2 <? m) eqn:E; [apply Z.ltb_lt in E|apply Z.ltb_ge in E];
      Z.div_mod_to_equations; lia. }
  rewrite E. subst doy mp.
  destruct (2 <? m) eqn:E'; [apply Z.ltb_lt in E'|apply Z.ltb_ge in E'];
    (repeat split; Z.div_mod_to_equations; lia).
Qed.

(** Every valid civil date is recovered from its day number. *)
Lemma civil_from_days_from_civil (y m d : Z) :
  1 <= m <= 12 -> 1 <= d <= daysInMonth y m ->
  civil_from_days (days_from_civil y m d) = (y, m, d).
Proof.
  intros Hm [Hd1 Hd].
  apply daysInMonth_bound in Hd as (Hd31 & H30 & H29); [|assumption].
  unfold days_from_civil, civil_from_days. cbv zeta.
  set (y1 := if m <=? 2 then y - 1 else y).
  set (era := y1 / 400).
  set (yoe := y1 - era * 400).
  set (mp := if 2 <? m then m - 3 else m + 9).
  set (doy := (153 * mp + 2) / 5 + d - 1).
  set (doe := yoe * 365 + yoe / 4 - yoe / 100 + doy).
  destruct (month_of_year m d Hm ltac:(lia) H30 ltac:(intros E; specialize (H29 E); lia))
    as (Hmp & Hdoy & H365 & Emp & Ed).
  fold mp doy in Hmp, Hdoy, H365, Emp, Ed.
  assert (0 <= yoe < 400) as Hyoe by (unfold yoe, era; Z.div_mod_to_equations; lia).
  assert (doy = 365 ->
          (yoe + 1) mod 4 = 0 /\ ((yoe + 1) mod 100 <> 0 \/ (yoe + 1) mod 400 = 0)) as Hleap.
  { intros E. destruct (H365 E) as [-> ->].
    destruct (H29 eq_refl) as [_ L]. specialize (L eq_refl).
    apply isLeapYear_spec in L.
    unfold yoe, era, y1. cbn [Z.leb Z.compare Pos.compare Pos.compare_cont].
    Z.div_mod_to_equations; lia. }
  destruct (year_of_era yoe doy Hyoe Hdoy Hleap) as [Hdoe Eyoe]. fold doe in Hdoe, Eyoe.
  set (z' := era * 146097 + doe - 719468 + 719468).
  assert (z' / 146097 = era) as -> by (unfold z'; Z.div_mod_to_equations; lia).
  replace (z' - era * 146097) with doe by (unfold z'; lia).
  rewrite Eyoe.
  replace (doe - (365 * yoe + yoe / 4 - yoe / 100)) with doy by (unfold doe; lia).
  rewrite Emp in Ed. rewrite Emp, Ed.
  assert ((if mp <? 10 then mp + 3 else mp - 9) = m) as ->.
  { unfold mp. destruct (Z.ltb_spec 2 m);
      [destruct (Z.ltb_spec (m - 3) 10)|destruct (Z.ltb_spec (m + 9) 10)]; lia. }
  do 2 f_equal.
  unfold yoe, era, y1. destruct (Z.leb_spec m 2); lia.
Qed.

Lemma era_of_day (doe : Z) :
  0 <= doe < 146097 ->
  let yoe := (doe - doe / 1460 + doe / 36524 - doe / 146096) / 365 in
  let doy := doe - (365 * yoe + yoe / 4 - yoe / 100) in
  0 <= yoe < 400 /\ 0 <= doy <= 365 /\
  (doy = 365 -> (yoe + 1) mod 4 = 0 /\ ((yoe + 1) mod 100 <> 0 \/ (yoe + 1) mod 400 = 0)).
Proof.
  intros Hdoe yoe doy. subst doy yoe.
  repeat split; Z.div_mod_to_equations; lia.
Qed.

Lemma day_of_year (doy : Z) :
  0 <= doy <= 365 ->
  let mp := (5 * doy + 2) / 153 in
  let d := doy - (153 * mp + 2) / 5 + 1 in
  let m := if mp <? 10 then mp + 3 else mp - 9 in
  0 <= mp <= 11 /\ 1 <= m <= 12 /\ 1 <= d <= 31 /\
  (m = 4 \/ m = 6 \/ m = 9 \/ m = 11 -> d <= 30) /\
  (m = 2 -> d <= 29 /\ (d = 29 -> doy = 365)) /\
  (if 2 <? m then m - 3 else m + 9) = mp.
Proof.
  intros Hdoy mp d m. subst m d.
  assert (0 <= mp <= 11) as Hmp by (subst mp; Z.div_mod_to_equations; lia).
  destruct (Z.ltb_spec mp 10) as [L|L].
  - destruct (Z.ltb_spec 2 (mp + 3)); [|lia].
    subst mp; repeat split; intros; Z.div_mod_to_equations; lia.
  - destruct (Z.ltb_spec 2 (mp - 9)); [lia|].
    subst mp; repeat split; intros; Z.div_mod_to_equations; lia.
Qed.

(** Every day number is the day number of its civil date, which is valid. *)
Lemma days_from_civil_from_days (z : Z) :
  let '(y, m, d) := civil_from_days z in
  days_from_civil y m d = z /\ 1 <= m <= 12 /\ 1 <= d <= daysInMonth y m.
Proof.
  unfold civil_from_days. cbv zeta.
  set (z' := z + 719468).
  set (era := z' / 146097).
  set (doe := z' - era * 146097).
  assert (0 <= doe < 146097) as Hdoe by (unfold doe, era; Z.div_mod_to_equations; lia).
  destruct (era_of_day doe Hdoe) as (Hyoe & Hdoy & Hleap).
  set (yoe := (doe - doe / 1460 + doe / 36524 - doe / 146096) / 365) in *.
  set (doy := doe - (365 * yoe + yoe / 4 - yoe / 100)) in *.
  destruct (day_of_year doy Hdoy) as (Hmp & Hm & Hd & H30 & H29 & Emp).
  set (mp := (5 * doy + 2) / 153) in *.
  set (d := doy - (153 * mp + 2) / 5 + 1) in *.
  set (m := if mp <? 10 then mp + 3 else mp - 9) in *.
  set (y := if m <=? 2 then yoe + era * 400 + 1 else yoe + era * 400).
  split; [|split; [assumption|split; [lia|]]].
  - unfold days_from_civil. cbv zeta.
    replace (if m <=? 2 then y - 1 else y) with (yoe + era * 400)
      by (unfold y; destruct (m <=? 2); lia).
    rewrite Emp.
    assert ((yoe + era * 400) / 400 = era) as -> by (Z.div_mod_to_equations; lia).
    replace (yoe + era * 400 - era * 400) with yoe by lia.
    unfold d, doy, doe, z'. lia.
  - apply daysInMonth_bound; [assumption|].
    split; [lia|]. split; [assumption|].
    intros E. destruct (H29 E) as [? L]. split; [assumption|].
    intros E29. destruct (Hleap (L E29)) as [L4 L100].
    apply isLeapYear_spec. unfold y. rewrite E. cbn [Z.leb Z.compare Pos.compare Pos.compare_cont].
    Z.div_mod_to_equations; lia.
Qed.

(** The fields of a moment are read back from its time value. *)
Lemma fields_of_time_Date_UTC (f : Fields) :
  fields_ok f = true -> fields_of_time (Date_UTC f) = f.
Proof.
  unfold fields_ok. rewrite !andb_true_iff, !Z.leb_le.
  intros [[[[[[[Hm1 Hm2] Hd1] Hd2] Hh1] Hh2] Hn1] Hn2].
  destruct f as [m d y h n]; cbn [f_month f_day f_year f_hour f_minute] in *.
  unfold fields_of_time, Date_UTC; cbn [f_month f_day f_year f_hour f_minute].
  set (D := days_from_civil y m d).
  set (t := D * msPerDay + h * msPerHour + n * msPerMinute).
  assert (t / msPerDay = D) as ->
    by (unfold t, msPerDay, msPerHour, msPerMinute; Z.div_mod_to_equations; lia).
  assert (t mod msPerDay = h * msPerHour + n * msPerMinute) as ->
    by (unfold t, msPerDay, msPerHour, msPerMinute; Z.div_mod_to_equations; lia).
  unfold D. rewrite civil_from_days_from_civil by lia.
  f_equal; unfold msPerHour, msPerMinute; Z.div_mod_to_equations; lia.
Qed.

(** The fields of any time value are a valid date and time of day, and
    name that time value cut to the minute. *)
Lemma Date_UTC_fields_of_time (t : Z) :
  fields_ok (fields_of_time t) = true /\
  Date_UTC (fields_of_time t) = t - t mod msPerMinute.
Proof.
  unfold fields_of_time.
  pose proof (days_from_civil_from_days (t / msPerDay)) as H.
  destruct (civil_from_days (t / msPerDay)) as [[y m] d].
  destruct H as (E & Hm & Hd).
  split.
  - unfold fields_ok; cbn [f_month f_day f_year f_hour f_minute].
    rewrite !andb_true_iff, !Z.leb_le.
    repeat split; try lia;
      unfold msPerDay, msPerHour, msPerMinute; Z.div_mod_to_equations; lia.
  - unfold Date_UTC; cbn [f_month f_day f_year f_hour f_minute]. rewrite E.
    unfold msPerDay, msPerHour, msPerMinute; Z.div_mod_to_equations; lia.
Qed.

End Calendar.

(** ** The text of a timestamp *)

Section Text.
Import Moment.

Lemma digit_char_inv (d : Z) :
  0 <= d <= 9 -> is_digit (digit_char d) = true /\ digit_val (digit_char d) = d.
Proof.
  intros H.
  assert (d = 0 \/ d = 1 \/ d = 2 \/ d = 3 \/ d = 4 \/ d = 5 \/ d = 6 \/ d = 7 \/
          d = 8 \/ d = 9) as Hcase by lia.
  repeat (destruct Hcase as [->|Hcase]; [split; reflexivity|]).
  subst d. split; reflexivity.
Qed.

Lemma digit_val_inv (c : ascii) :
  is_digit c = true -> digit_char (digit_val c) = c /\ 0 <= digit_val c <= 9.
Proof.
  destruct c as [[] [] [] [] [] [] [] []]; intros H; try discriminate H;
    (split; [reflexivity|unfold digit_val; cbn; lia]).
Qed.

Lemma decimal_fuel_digit (fuel : nat) (n : Z) :
  0 <= n < 10 -> decimal_fuel fuel n = String (digit_char n) EmptyString.
Proof.
  intros H. destruct fuel; cbn [decimal_fuel].
  - now rewrite Z.mod_small by lia.
  - now replace (n <? 10) with true by (symmetry; apply Z.ltb_lt; lia).
Qed.

Lemma decimal_fuel_more (fuel : nat) (n : Z) :
  10 <= n ->
  decimal_fuel (S fuel) n =
  (decimal_fuel fuel (n / 10) ++ String (digit_char (n mod 10)) EmptyString)%string.
Proof.
  intros H. cbn [decimal_fuel].
  now replace (n <? 10) with false by (symmetry; apply Z.ltb_ge; lia).
Qed.

Lemma fuel_of_log2 (n lo : Z) (k : nat) :
  lo <= n -> 0 < lo -> Z.of_nat k <= Z.log2 lo ->
  exists fuel, Z.to_nat (Z.log2 n) = (k + fuel)%nat.
Proof.
  intros Hn Hlo Hk.
  pose proof (Z.log2_le_mono lo n Hn).
  exists (Z.to_nat (Z.log2 n) - k)%nat. lia.
Qed.

(** Two and four digits, zero-filled, digit by digit. *)
Lemma zeroFill_2 (n : Z) :
  0 <= n < 100 ->
  zeroFill n 2 =
  String (digit_char (n / 10)) (String (digit_char (n mod 10)) EmptyString).
Proof.
  intros H. unfold zeroFill.
  replace (n <? 0) with false by (symmetry; apply Z.ltb_ge; lia).
  rewrite Z.abs_eq by lia. unfold decimal.
  destruct (Z_lt_ge_dec n 10) as [L|L].
  - rewrite decimal_fuel_digit by lia.
    rewrite Z.div_small, Z.mod_small by lia. reflexivity.
  - destruct (fuel_of_log2 n 10 1) as [fuel ->]; [lia|lia|cbn; lia|].
    cbn [Nat.add]. rewrite decimal_fuel_more by lia.
    rewrite decimal_fuel_digit by (Z.div_mod_to_equations; lia).
    reflexivity.
Qed.

Lemma zeroFill_4 (n : Z) :
  0 <= n < 10000 ->
  zeroFill n 4 =
  String (digit_char (n / 1000))
    (String (digit_char (n / 100 mod 10))
       (String (digit_char (n / 10 mod 10))
          (String (digit_char (n mod 10)) EmptyString))).
Proof.
  intros H. unfold zeroFill.
  replace (n <? 0) with false by (symmetry; apply Z.ltb_ge; lia).
  rewrite Z.abs_eq by lia. unfold decimal.
  destruct (Z_lt_ge_dec n 10) as [L1|L1];
    [|destruct (Z_lt_ge_dec n 100) as [L2|L2];
      [|destruct (Z_lt_ge_dec n 1000) as [L3|L3]]].
  - rewrite decimal_fuel_digit by lia.
    rewrite !(Z.div_small n), (Z.mod_small n) by lia. reflexivity.
  - destruct (fuel_of_log2 n 10 1) as [fuel ->]; [lia|lia|cbn; lia|].
    cbn [Nat.add]. rewrite decimal_fuel_more by lia.
    rewrite decimal_fuel_digit by (Z.div_mod_to_equations; lia).
    rewrite (Z.div_small n 1000), (Z.div_small n 100) by lia.
    rewrite (Z.mod_small (n / 10)) by (Z.div_mod_to_equations; lia). reflexivity.
  - destruct (fuel_of_log2 n 100 2) as [fuel ->]; [lia|lia|cbn; lia|].
    cbn [Nat.add]. rewrite decimal_fuel_more by lia.
    rewrite decimal_fuel_more by (Z.div_mod_to_equations; lia).
    rewrite decimal_fuel_digit by (Z.div_mod_to_equations; lia).
    rewrite (Z.div_small n 1000) by lia.
    rewrite Z.div_div by lia.
    rewrite (Z.mod_small (n / 100)) by (Z.div_mod_to_equations; lia). reflexivity.
  - destruct (fuel_of_log2 n 1000 3) as [fuel ->]; [lia|lia|cbn; lia|].
    cbn [Nat.add]. rewrite decimal_fuel_more by lia.
    rewrite decimal_fuel_more by (Z.div_mod_to_equations; lia).
    rewrite decimal_fuel_more by (Z.div_mod_to_equations; lia).
    rewrite decimal_fuel_digit by (Z.div_mod_to_equations; lia).
    rewrite !Z.div_div by lia. reflexivity.
Qed.

Lemma two_digits_digit_char (n : Z) :
  0 <= n < 100 ->
  two_digits (digit_char (n / 10)) (digit_char (n mod 10)) = Some n.
Proof.
  intros H. unfold two_digits.
  destruct (digit_char_inv (n / 10)) as [-> ->]; [Z.div_mod_to_equations; lia|].
  destruct (digit_char_inv (n mod 10)) as [-> ->]; [Z.div_mod_to_equations; lia|].
  cbn [andb]. f_equal. Z.div_mod_to_equations; lia.
Qed.

Lemma four_digits_digit_char (n : Z) :
  0 <= n < 10000 ->
  four_digits (digit_char (n / 1000)) (digit_char (n / 100 mod 10))
    (digit_char (n / 10 mod 10)) (digit_char (n mod 10)) = Some n.
Proof.
  intros H. unfold four_digits.
  destruct (digit_char_inv (n / 1000)) as [-> ->]; [Z.div_mod_to_equations; lia|].
  destruct (digit_char_inv (n / 100 mod 10)) as [-> ->]; [Z.div_mod_to_equations; lia|].
  destruct (digit_char_inv (n / 10 mod 10)) as [-> ->]; [Z.div_mod_to_equations; lia|].
  destruct (digit_char_inv (n mod 10)) as [-> ->]; [Z.div_mod_to_equations; lia|].
  cbn [andb]. f_equal. Z.div_mod_to_equations; lia.
Qed.

Lemma zeroFill_two_digits (a b : ascii) (n : Z) :
  two_digits a b = Some n ->
  0 <= n < 100 /\ zeroFill n 2 = String a (String b EmptyString).
Proof.
  unfold two_digits.
  destruct (is_digit a) eqn:Ha; [|discriminate].
  destruct (is_digit b) eqn:Hb; [|discriminate].
  cbn [andb]. intros [= <-].
  destruct (digit_val_inv a Ha) as [Ea Ra], (digit_val_inv b Hb) as [Eb Rb].
  split; [lia|]. rewrite zeroFill_2 by lia.
  replace ((10 * digit_val a + digit_val b) / 10) with (digit_val a)
    by (Z.div_mod_to_equations; lia).
  replace ((10 * digit_val a + digit_val b) mod 10) with (digit_val b)
    by (Z.div_mod_to_equations; lia).
  now rewrite Ea, Eb.
Qed.

Lemma zeroFill_four_digits (a b c d : ascii) (n : Z) :
  four_digits a b c d = Some n ->
  0 <= n < 10000 /\
  zeroFill n 4 = String a (String b (String c (String d EmptyString))).
Proof.
  unfold four_digits.
  destruct (is_digit a) eqn:Ha; [|discriminate].
  destruct (is_digit b) eqn:Hb; [|discriminate].
  destruct (is_digit c) eqn:Hc; [|discriminate].
  destruct (is_digit d) eqn:Hd; [|discriminate].
  cbn [andb]. intros [= <-].
  destruct (digit_val_inv a Ha) as [Ea Ra], (digit_val_inv b Hb) as [Eb Rb],
    (digit_val_inv c Hc) as [Ec Rc], (digit_val_inv d Hd) as [Ed Rd].
  split; [lia|]. rewrite zeroFill_4 by lia.
  set (n := 1000 * digit_val a + 100 * digit_val b + 10 * digit_val c + digit_val d).
  replace (n / 1000) with (digit_val a) by (unfold n; Z.div_mod_to_equations; lia).
  replace (n / 100 mod 10) with (digit_val b) by (unfold n; Z.div_mod_to_equations; lia).
  replace (n / 10 mod 10) with (digit_val c) by (unfold n; Z.div_mod_to_equations; lia).
  replace (n mod 10) with (digit_val d) by (unfold n; Z.div_mod_to_equations; lia).
  now rewrite Ea, Eb, Ec, Ed.
Qed.

Lemma fields_ok_ranges (f : Fields) :
  fields_ok f = true ->
  1 <= f_month f <= 12 /\ 1 <= f_day f <= 31 /\
  0 <= f_hour f <= 23 /\ 0 <= f_minute f <= 59.
Proof.
  unfold fields_ok. rewrite !andb_true_iff, !Z.leb_le.
  intros [[[[[[[Hm1 Hm2] Hd1] Hd2] Hh1] Hh2] Hn1] Hn2].
  apply daysInMonth_bound in Hd2; lia.
Qed.

(** A rendered date reads back as its fields. *)
Lemma read_fields_render (f : Fields) :
  fields_ok f = true -> 0 <= f_year f <= 9999 ->
  read_fields (render f) = Some f.
Proof.
  intros Hok Hy. destruct (fields_ok_ranges f Hok) as (Hm & Hd & Hh & Hn).
  unfold render.
  rewrite !zeroFill_2, zeroFill_4 by lia.
  unfold read_fields. cbn [String.append list_ascii_of_string].
  cbn [Ascii.eqb Bool.eqb andb].
  rewrite !two_digits_digit_char, four_digits_digit_char by lia.
  now destruct f.
Qed.

(** A string that reads as fields is the rendering of those fields. *)
Lemma render_read_fields (s : string) (f : Fields) :
  read_fields s = Some f -> render f = s /\ 0 <= f_year f <= 9999.
Proof.
  unfold read_fields. intros H.
  rewrite <- (string_of_list_ascii_of_string s).
  destruct (list_ascii_of_string s)
    as [|m1 [|m2 [|s1 [|d1 [|d2 [|s2 [|y1 [|y2 [|y3 [|y4 [|s3 [|h1 [|h2 [|s4
        [|n1 [|n2 [|? ?]]]]]]]]]]]]]]]]]; try discriminate.
  destruct (Ascii.eqb_spec s1 "-"); [subst|discriminate].
  destruct (Ascii.eqb_spec s2 "-"); [subst|discriminate].
  destruct (Ascii.eqb_spec s3 " "); [subst|discriminate].
  destruct (Ascii.eqb_spec s4 ":"); [subst|discriminate].
  cbn [andb] in H.
  destruct (two_digits m1 m2) as [m|] eqn:Em; [|discriminate].
  destruct (two_digits d1 d2) as [d|] eqn:Ed; [|discriminate].
  destruct (four_digits y1 y2 y3 y4) as [y|] eqn:Ey; [|discriminate].
  destruct (two_digits h1 h2) as [h|] eqn:Eh; [|discriminate].
  destruct (two_digits n1 n2) as [n|] eqn:En; [|discriminate].
  injection H as <-.
  apply zeroFill_two_digits in Em as [_ Em], Ed as [_ Ed], Eh as [_ Eh], En as [_ En].
  apply zeroFill_four_digits in Ey as [Ry Ey].
  unfold render; cbn [f_month f_day f_year f_hour f_minute].
  rewrite Em, Ed, Ey, Eh, En. split; [reflexivity|lia].
Qed.

(** The strings in the fixed format are exactly the renderings of valid
    dates with a year of four digits. *)
Lemma moment_utc_render (f : Fields) :
  fields_ok f = true -> 0 <= f_year f <= 9999 ->
  moment_utc (render f) = Some f.
Proof.
  intros Hok Hy. unfold moment_utc.
  now rewrite read_fields_render, Hok.
Qed.

Lemma render_moment_utc (s : string) (f : Fields) :
  moment_utc s = Some f ->
  render f = s /\ fields_ok f = true /\ 0 <= f_year f <= 9999.
Proof.
  unfold moment_utc.
  destruct (read_fields s) as [g|] eqn:E; [|discriminate].
  destruct (fields_ok g) eqn:Hok; [|discriminate].
  intros [= <-]. apply render_read_fields in E as [? ?]. auto.
Qed.

End Text.

(** ** The sheet list page *)

Section SheetList.
Import JQuery Index.

Variable env : Env.

Lemma text_each_length (f : nat -> string -> string) (sel : list node) :
  forall i els, length (text_each f i sel els) = length els.
Proof.
  induction sel as [|n sel IH]; intros i els; cbn [text_each]; [reflexivity|].
  now rewrite IH, length_alter.
Qed.

Lemma text_each_outside (f : nat -> string -> string) (sel : list node) (n : node) :
  n ∉ sel -> forall i els, text_each f i sel els !! n = els !! n.
Proof.
  induction sel as [|m sel IH]; intros Hn i els; cbn [text_each]; [reflexivity|].
  apply not_elem_of_cons in Hn as [Hne Hn].
  rewrite IH by assumption. now apply list_lookup_alter_ne.
Qed.

Lemma trigger_invariant {S A : Type} (proj : S -> A) (handler : S -> S) :
  (forall s, proj (handler s) = proj s) ->
  forall bound s, proj (trigger bound handler s) = proj s.
Proof.
  intros H bound. induction bound as [|k IH]; intros s; cbn [trigger]; [reflexivity|].
  now rewrite IH, H.
Qed.

Lemma click_row_displayed (bound : Row -> nat) (handler : node -> Page -> Page)
    (row : node) (p : Page) :
  (forall r q, displayed (handler r q) = displayed q) ->
  displayed (click_row bound handler row p) = displayed p.
Proof.
  intros H. unfold click_row.
  destruct (decide (row ∈ tbody p)); [|reflexivity].
  destruct (elements p !! row); [|reflexivity].
  now apply trigger_invariant.
Qed.

(** A click only puts requests in flight (or opens a window). *)
Lemma click_displayed (e : Event) (p : Page) :
  match e with
  | ClickCreate | ClickVisit _ | ClickSync _ | ClickDelete _ => True
  | _ => False
  end ->
  displayed (step env e p) = displayed p.
Proof.
  destruct e; intros H; try contradiction; cbn [step].
  - now apply trigger_invariant.
  - now apply click_row_displayed.
  - now apply click_row_displayed.
  - now apply click_row_displayed.
Qed.

Lemma displayed_banners (p q : Page) : displayed p = displayed q -> banners p = banners q.
Proof. unfold displayed, banners. congruence. Qed.

Lemma displayed_tbody (p q : Page) : displayed p = displayed q -> tbody p = tbody q.
Proof. unfold displayed. congruence. Qed.

(** *** The three banner routines *)

Lemma processNotificationsOnLoadOnDelete_banners (p : Page) :
  banners (processNotificationsOnLoadOnDelete p) =
  if (length (tbody p) =? 0)%nat then (true, notification_edit_sync p) else banners p.
Proof.
  unfold processNotificationsOnLoadOnDelete.
  now destruct (length (tbody p) =? 0)%nat.
Qed.

Lemma processNotificationsOnLoadOnDelete_rest (p : Page) :
  elements (processNotificationsOnLoadOnDelete p) = elements p /\
  tbody (processNotificationsOnLoadOnDelete p) = tbody p /\
  notification_edit_sync (processNotificationsOnLoadOnDelete p) = notification_edit_sync p.
Proof.
  unfold processNotificationsOnLoadOnDelete.
  now destruct (length (tbody p) =? 0)%nat.
Qed.

Lemma processNotificationsOnCreate_banners (p : Page) :
  banners (processNotificationsOnCreate p) = (false, (length (tbody p) =? 1)%nat).
Proof.
  unfold processNotificationsOnCreate.
  now destruct (length (tbody p) =? 1)%nat.
Qed.

(** *** Successful create *)

Lemma alter_last {A : Type} (f : A -> A) (l : list A) (x : A) :
  alter f (length l) (l ++ [x]) = l ++ [f x].
Proof.
  rewrite alter_app_r_alt by lia. now rewrite Nat.sub_diag.
Qed.

Lemma createOnClick_success_tbody (m : Markup) (p : Page) :
  tbody (createOnClick_success env m p) = tbody p ++ [length (elements p)].
Proof.
  unfold createOnClick_success, processNotificationsOnCreate. cbv zeta.
  now destruct (_ =? 1)%nat.
Qed.

Lemma createOnClick_success_elements (m : Markup) (p : Page) :
  elements (createOnClick_success env m p) =
  elements p ++
  [mkRow (m_ssheet_id m) (m_title m) (convertToLocalDateTime env (m_datetime m)) 1 1 1].
Proof.
  unfold createOnClick_success, processNotificationsOnCreate. cbv zeta.
  match goal with |- elements (set_notification_add _ (if ?b then _ else _)) = _ =>
    destruct b end;
    cbn [elements set_notification_add set_notification_edit_sync wireRowClickHandlers
         utc_datetime_text_fn set_elements set_tbody tbody foldl text_each];
    rewrite !alter_last; reflexivity.
Qed.

Lemma createOnClick_success_banners (m : Markup) (p : Page) :
  banners (createOnClick_success env m p) =
  (false, (length (tbody p ++ [length (elements p)]) =? 1)%nat).
Proof.
  unfold createOnClick_success. cbv zeta. now rewrite processNotificationsOnCreate_banners.
Qed.

Lemma createOnClick_success_rest (m : Markup) (p : Page) :
  create_sheet_button (createOnClick_success env m p) = create_sheet_button p /\
  ajax (createOnClick_success env m p) = ajax p /\
  alerts (createOnClick_success env m p) = alerts p /\
  reloads (createOnClick_success env m p) = reloads p /\
  windows (createOnClick_success env m p) = windows p.
Proof.
  unfold createOnClick_success, processNotificationsOnCreate. cbv zeta.
  match goal with |- context [if ?b then _ else _] => destruct b end; now repeat split.
Qed.

(** C3. A successful create appends exactly one new row at the end of the
    table and leaves every earlier row element as it was; the new row
    carries the markup's identifier and title, its timestamp converted to
    local time, and one handler on each of its three buttons; afterwards
    the add banner is hidden and the edit/sync banner is shown exactly
    when the table now has one row (one row: edit/sync shown, add hidden;
    more rows: both hidden). *)
Theorem createOnClick_success_appends_row (m : Markup) (p : Page) :
  let p' := createOnClick_success env m p in
  let row := length (elements p) in
  tbody p' = tbody p ++ [row] /\
  length (tbody p') = S (length (tbody p)) /\
  (forall n r, elements p !! n = Some r -> elements p' !! n = Some r) /\
  elements p' !! row =
    Some (mkRow (m_ssheet_id m) (m_title m)
            (convertToLocalDateTime env (m_datetime m)) 1 1 1) /\
  length (elements p') = S (length (elements p)) /\
  notification_add p' = false /\
  notification_edit_sync p' = (length (tbody p') =? 1)%nat /\
  banners p' = spec_banner_state (length (tbody p')) /\
  (length (tbody p') = 1%nat -> banners p' = (false, true)) /\
  ((length (tbody p') > 1)%nat -> banners p' = (false, false)).
Proof.
  intros p' row. subst p' row.
  pose proof (createOnClick_success_banners m p) as Hb.
  rewrite createOnClick_success_tbody, createOnClick_success_elements.
  rewrite !length_app. cbn [length].
  unfold banners in Hb. apply pair_equal_spec in Hb as [Hadd Hedit].
  rewrite length_app in Hedit. cbn [length] in Hedit.
  unfold banners, spec_banner_state. rewrite Hadd, Hedit.
  repeat split.
  - lia.
  - intros n r H. now apply lookup_app_l_Some.
  - rewrite lookup_app_r by lia. now rewrite Nat.sub_diag.
  - lia.
  - f_equal. now replace (length (tbody p) + 1)%nat with (S (length (tbody p))) by lia.
  - intros ->. reflexivity.
  - intros H. f_equal. apply Nat.eqb_neq. lia.
Qed.

(** *** Successful sync *)

Lemma syncSheetOnClick_success_banners (row : node) (datetime : string)
    (title : option string) (p : Page) :
  banners (syncSheetOnClick_success env row datetime title p) = (notification_add p, false).
Proof. unfold syncSheetOnClick_success. now destruct title. Qed.

Lemma syncSheetOnClick_success_tbody (row : node) (datetime : string)
    (title : option string) (p : Page) :
  tbody (syncSheetOnClick_success env row datetime title p) = tbody p.
Proof. unfold syncSheetOnClick_success. now destruct title. Qed.

Lemma syncSheetOnClick_success_length (row : node) (datetime : string)
    (title : option string) (p : Page) :
  length (elements (syncSheetOnClick_success env row datetime title p))
  = length (elements p).
Proof.
  unfold syncSheetOnClick_success. cbv zeta.
  destruct title;
    cbn [processNotificationsOnSync set_notification_edit_sync sheet_title_text
         utc_datetime_text set_elements elements];
    now rewrite ?length_alter.
Qed.

(** C4. A successful sync changes one row element only, the one the
    handler was clicked on: its timestamp cell becomes the response's
    datetime converted to local time, its title becomes the response's
    title exactly when the response has one, and its identifier and its
    handlers stay; every other row element, the table, the add banner, the
    requests in flight and what was shown to the user stay; the edit/sync
    banner is hidden afterwards, whatever it was and however many rows
    there are. *)
Theorem syncSheetOnClick_success_frame (row : node) (datetime : string)
    (title : option string) (p : Page) :
  let p' := syncSheetOnClick_success env row datetime title p in
  (forall r, elements p !! row = Some r ->
     exists r', elements p' !! row = Some r' /\
       utc_datetime r' = convertToLocalDateTime env datetime /\
       sheet_title r' = match title with Some t => t | None => sheet_title r end /\
       ssheet_id r' = ssheet_id r /\
       visit_sheet r' = visit_sheet r /\ sync_sheet r' = sync_sheet r /\
       delete_sheet r' = delete_sheet r) /\
  (forall n, n ≠ row -> elements p' !! n = elements p !! n) /\
  length (elements p') = length (elements p) /\
  tbody p' = tbody p /\
  notification_edit_sync p' = false /\
  notification_add p' = notification_add p /\
  create_sheet_button p' = create_sheet_button p /\
  ajax p' = ajax p /\ alerts p' = alerts p /\
  reloads p' = reloads p /\ windows p' = windows p.
Proof.
  intros p'. subst p'. unfold syncSheetOnClick_success. cbv zeta.
  destruct title as [t|];
    cbn [processNotificationsOnSync set_notification_edit_sync sheet_title_text
         utc_datetime_text set_elements elements tbody notification_add
         notification_edit_sync create_sheet_button ajax alerts reloads windows];
    (split; [|split; [|split]]; [| |rewrite ?length_alter; reflexivity|now repeat split]).
  - intros r Hr. rewrite !list_lookup_alter_eq, Hr. cbn.
    eexists; split; [reflexivity|]. now repeat split.
  - intros n Hn. now rewrite !list_lookup_alter_ne by congruence.
  - intros r Hr. rewrite !list_lookup_alter_eq, Hr. cbn.
    eexists; split; [reflexivity|]. now repeat split.
  - intros n Hn. now rewrite !list_lookup_alter_ne by congruence.
Qed.

End SheetList.

Section SheetListErrors.
Import JQuery Index.

Variable env : Env.

(** *** Errors *)

Lemma informUserOfSheetAccessError_alert (statusCode : Z) (p : Page) :
  statusCode ≠ 401 ->
  informUserOfSheetAccessError statusCode p = alert (spec_message statusCode) p.
Proof.
  intros H. unfold informUserOfSheetAccessError, spec_message.
  destruct (Z.eqb_spec statusCode 401); [contradiction|].
  now destruct (statusCode =? 403), (statusCode =? 404), (statusCode =? 400).
Qed.

(** C5. [informUserOfSheetAccessError] follows the fixed mapping: 401
    reloads the page and shows no alert; 403, 404 and 400 each show their
    own message; any other code (999, say) shows the generic message; and
    every code but 401 gives exactly one alert, no reload, and leaves the
    rest of the page alone. *)
Theorem informUserOfSheetAccessError_mapping (statusCode : Z) (p : Page) :
  let p' := informUserOfSheetAccessError statusCode p in
  (statusCode = 401 -> alerts p' = alerts p /\ reloads p' = S (reloads p)) /\
  (statusCode = 403 ->
     alerts p' = alerts p ++ ["You are not authorized to modify this sheet."%string]) /\
  (statusCode = 404 -> alerts p' = alerts p ++ ["Sheet was not found."%string]) /\
  (statusCode = 400 ->
     alerts p' = alerts p ++
       ["Sheet formatted incorrectly. Make sure there are no blank rows and the first row is a header."%string]) /\
  (statusCode ≠ 401 -> statusCode ≠ 403 -> statusCode ≠ 404 -> statusCode ≠ 400 ->
     alerts p' = alerts p ++ ["Could not perform operation."%string]) /\
  (statusCode ≠ 401 ->
     alerts p' = alerts p ++ [spec_message statusCode] /\ reloads p' = reloads p) /\
  alerts (informUserOfSheetAccessError 999 p) =
    alerts p ++ ["Could not perform operation."%string] /\
  displayed p' = displayed p /\ ajax p' = ajax p /\ windows p' = windows p /\
  create_sheet_button p' = create_sheet_button p.
Proof.
  intros p'. subst p'. unfold informUserOfSheetAccessError.
  destruct (Z.eqb_spec statusCode 401) as [->|H401].
  { repeat split; intros; try lia; try reflexivity. }
  destruct (Z.eqb_spec statusCode 403) as [->|H403].
  { repeat split; intros; try lia; try reflexivity. }
  destruct (Z.eqb_spec statusCode 404) as [->|H404].
  { repeat split; intros; try lia; try reflexivity. }
  destruct (Z.eqb_spec statusCode 400) as [->|H400].
  { repeat split; intros; try lia; try reflexivity. }
  repeat split; intros; try lia; try reflexivity.
  unfold spec_message.
  destruct (Z.eqb_spec statusCode 403); [lia|].
  destruct (Z.eqb_spec statusCode 404); [lia|].
  destruct (Z.eqb_spec statusCode 400); [lia|]. reflexivity.
Qed.

Lemma step_Fail (i : nat) (status : Z) (p : Page) (req : Ajax Callback) :
  ajax p !! i = Some req -> error req = Some accessError ->
  step env (Fail i status) p =
  informUserOfSheetAccessError status (set_ajax (delete i (ajax p)) p).
Proof.
  intros Hreq Herr. cbn [step]. unfold complete. now rewrite Hreq, Herr.
Qed.

Lemma step_Done (i : nat) (data : Data) (p : Page) (req : Ajax Callback) (cb : Callback) :
  ajax p !! i = Some req -> success req = Some cb ->
  step env (Done i data) p = on_success env cb data (set_ajax (delete i (ajax p)) p).
Proof.
  intros Hreq Hcb. cbn [step]. unfold complete. now rewrite Hreq, Hcb.
Qed.

Lemma delete_last {A : Type} (l : list A) (x : A) : delete (length l) (l ++ [x]) = l.
Proof.
  rewrite delete_middle. apply app_nil_r.
Qed.

Lemma set_ajax_same (p : Page) : set_ajax (ajax p) p = p.
Proof. now destruct p. Qed.

(** C6. A create, sync or delete request that fails with a status other
    than 401 changes nothing the user sees but for one alert: the handler
    that sent it only put the request in flight, with the error callback
    registered, and when the failure arrives the rows, every row's
    attributes, the table and both banners are as they were before it;
    exactly one alert, the message of the status, is added, nothing is
    reloaded, and the other requests stay in flight.  In particular a
    request that fails right after its click leaves the page as it was
    before the click, plus that alert. *)
Theorem request_failure_leaves_page (i : nat) (status : Z) (p : Page)
    (req : Ajax Callback) :
  ajax p !! i = Some req -> error req = Some accessError -> status ≠ 401 ->
  let p' := step env (Fail i status) p in
  displayed p' = displayed p /\
  elements p' = elements p /\ tbody p' = tbody p /\
  notification_add p' = notification_add p /\
  notification_edit_sync p' = notification_edit_sync p /\
  alerts p' = alerts p ++ [spec_message status] /\
  reloads p' = reloads p /\ windows p' = windows p /\
  ajax p' = delete i (ajax p) /\
  (forall (q : Page) (row : node),
     let sent := [createOnClick env q; syncSheetOnClick env row q;
                  deleteSheetOnClick env row q] in
     Forall (fun q' =>
       displayed q' = displayed q /\ alerts q' = alerts q /\
       (exists r, ajax q' = ajax q ++ [r] /\ error r = Some accessError) /\
       step env (Fail (length (ajax q)) status) q' = alert (spec_message status) q) sent).
Proof.
  intros Hreq Herr H401 p'. subst p'.
  rewrite (step_Fail _ _ _ _ Hreq Herr), informUserOfSheetAccessError_alert by assumption.
  do 9 (split; [reflexivity|]).
  intros q row sent. subst sent.
  repeat first [apply List.Forall_nil | apply List.Forall_cons].
  all: split; [reflexivity|split; [reflexivity|split; [eexists; split; reflexivity|]]].
  all: erewrite step_Fail;
    [|cbn [ajax createOnClick syncSheetOnClick deleteSheetOnClick jquery_ajax set_ajax];
      rewrite lookup_app_r, Nat.sub_diag by lia; reflexivity|reflexivity].
  all: rewrite informUserOfSheetAccessError_alert by assumption.
  all: cbn [ajax createOnClick syncSheetOnClick deleteSheetOnClick jquery_ajax set_ajax
            elements tbody notification_add notification_edit_sync create_sheet_button
            alerts reloads windows].
  all: rewrite delete_last; now destruct q.
Qed.

(** *** Successful delete *)

Lemma deleteSheetOnClick_success_tbody (row : node) (p : Page) :
  tbody (deleteSheetOnClick_success row p) = filter (fun n => n ≠ row) (tbody p).
Proof.
  unfold deleteSheetOnClick_success. cbv zeta.
  now destruct (processNotificationsOnLoadOnDelete_rest (remove row p)) as (_ & -> & _).
Qed.

Lemma deleteSheetOnClick_success_banners (row : node) (p : Page) :
  banners (deleteSheetOnClick_success row p) =
  if (length (filter (fun n => n ≠ row) (tbody p)) =? 0)%nat
  then (true, notification_edit_sync p) else banners p.
Proof.
  unfold deleteSheetOnClick_success. cbv zeta.
  now rewrite processNotificationsOnLoadOnDelete_banners.
Qed.

Lemma deleteSheetOnClick_success_rest (row : node) (p : Page) :
  elements (deleteSheetOnClick_success row p) = alter unbind_clicks row (elements p) /\
  create_sheet_button (deleteSheetOnClick_success row p) = create_sheet_button p /\
  ajax (deleteSheetOnClick_success row p) = ajax p /\
  alerts (deleteSheetOnClick_success row p) = alerts p /\
  reloads (deleteSheetOnClick_success row p) = reloads p /\
  windows (deleteSheetOnClick_success row p) = windows p.
Proof.
  unfold deleteSheetOnClick_success, processNotificationsOnLoadOnDelete. cbv zeta.
  match goal with |- context [if ?b then _ else _] => destruct b end; now repeat split.
Qed.

Lemma length_zero_nil {A : Type} (l : list A) : (length l =? 0)%nat = true <-> l = [].
Proof. destruct l; cbn; split; congruence. Qed.

(** C9. A successful delete that leaves at least one row leaves both
    banners as they were.  The routine that runs after a delete can only
    show the add banner, and only when no row remains: it hides neither
    banner and does not touch the edit/sync banner. *)
Theorem deleteSheetOnClick_success_keeps_banners (row : node) (p : Page) :
  tbody (deleteSheetOnClick_success row p) ≠ [] ->
  banners (deleteSheetOnClick_success row p) = banners p /\
  notification_add (deleteSheetOnClick_success row p) = notification_add p /\
  notification_edit_sync (deleteSheetOnClick_success row p) = notification_edit_sync p /\
  (forall q, notification_edit_sync (processNotificationsOnLoadOnDelete q)
             = notification_edit_sync q /\
             (notification_add q = true ->
              notification_add (processNotificationsOnLoadOnDelete q) = true) /\
             (notification_add (processNotificationsOnLoadOnDelete q) ≠ notification_add q ->
              tbody q = [] /\ notification_add (processNotificationsOnLoadOnDelete q) = true)).
Proof.
  intros Hrows.
  pose proof (deleteSheetOnClick_success_banners row p) as Hb.
  rewrite deleteSheetOnClick_success_tbody in Hrows.
  destruct (length (filter (fun n => n ≠ row) (tbody p)) =? 0)%nat eqn:E.
  { apply length_zero_nil in E. contradiction. }
  split; [assumption|].
  apply pair_equal_spec in Hb as [Ha He].
  split; [assumption|]. split; [assumption|].
  intros q. unfold processNotificationsOnLoadOnDelete.
  destruct (length (tbody q) =? 0)%nat eqn:Eq; cbn.
  - apply length_zero_nil in Eq. repeat split; auto.
  - repeat split; auto; congruence.
Qed.

End SheetListErrors.

Section SheetListRuns.
Import JQuery Index.

Variable env : Env.

(** *** Page load *)

Lemma ready_tbody (p : Page) : tbody (ready env p) = tbody p.
Proof.
  unfold ready, processNotificationsOnLoadOnDelete. cbv zeta.
  match goal with |- context [if ?b then _ else _] => destruct b end; reflexivity.
Qed.

Lemma ready_banners (p : Page) :
  banners (ready env p) =
  if (length (tbody p) =? 0)%nat then (true, notification_edit_sync p) else banners p.
Proof.
  unfold ready, processNotificationsOnLoadOnDelete. cbv zeta.
  cbn [tbody utc_datetime_text_fn set_elements].
  destruct (length (tbody p) =? 0)%nat; reflexivity.
Qed.

Lemma foldl_alter_length {A : Type} (f : A -> A) (sel : list nat) :
  forall els : list A, length (foldl (fun l n => alter f n l) els sel) = length els.
Proof.
  induction sel as [|n sel IH]; intros els; cbn [foldl]; [reflexivity|].
  now rewrite IH, length_alter.
Qed.

Lemma ready_elements_length (p : Page) :
  length (elements (ready env p)) = length (elements p).
Proof.
  unfold ready, processNotificationsOnLoadOnDelete. cbv zeta.
  match goal with |- context [if ?b then _ else _] => destruct b end;
    cbn [elements wireRowClickHandlers set_elements set_create_sheet_button
         set_notification_add utc_datetime_text_fn tbody];
    now rewrite foldl_alter_length, text_each_length.
Qed.

(** *** Every step is a click, the page load, a failure, or one of the
    three success callbacks *)

Lemma informUserOfSheetAccessError_displayed (status : Z) (p : Page) :
  displayed (informUserOfSheetAccessError status p) = displayed p.
Proof.
  unfold informUserOfSheetAccessError.
  now destruct (status =? 401), (status =? 403), (status =? 404), (status =? 400).
Qed.

Lemma step_effect (e : Event) (p : Page) : Effect env p e (step env e p).
Proof.
  destruct e as [| |row|row|row|i data|i status].
  - now apply effect_ready.
  - apply effect_none. now apply (click_displayed env ClickCreate).
  - apply effect_none. now apply (click_displayed env (ClickVisit row)).
  - apply effect_none. now apply (click_displayed env (ClickSync row)).
  - apply effect_none. now apply (click_displayed env (ClickDelete row)).
  - cbn [step]. unfold complete.
    destruct (ajax p !! i) as [req|] eqn:Hreq; [|now apply effect_none].
    destruct (success req) as [cb|] eqn:Hcb; [|now apply effect_none].
    destruct cb as [|row|row|]; cbn [on_success].
    + destruct data as [m|datetime title|]; try (now apply effect_none).
      exact (effect_create env p _ i req m (set_ajax (delete i (ajax p)) p) eq_refl Hreq Hcb eq_refl).
    + destruct data as [m|datetime title|]; try (now apply effect_none).
      exact (effect_sync env p _ i req row datetime title (set_ajax (delete i (ajax p)) p)
               eq_refl Hreq Hcb eq_refl).
    + exact (effect_delete env p _ i req row data (set_ajax (delete i (ajax p)) p)
               eq_refl Hreq Hcb eq_refl).
    + destruct data; now apply effect_none.
  - cbn [step]. unfold complete.
    destruct (ajax p !! i) as [req|] eqn:Hreq; [|now apply effect_none].
    destruct (error req) as [cb|] eqn:Hcb; [|now apply effect_none].
    destruct cb; cbn [on_error]; try (now apply effect_none).
    apply effect_none. unfold ajax_error.
    now rewrite informUserOfSheetAccessError_displayed.
Qed.

(** C10. The edit/sync banner is not shown by the page-load handler, by a
    successful sync or by a successful delete: each leaves it as it was or
    hides it.  Whenever a step of the page turns it from hidden to shown,
    that step is the success of a create request and the table has
    exactly one row afterwards.  Every successful sync leaves it hidden,
    whatever the row count. *)
Theorem edit_sync_banner_shown_only_by_create (p : Page) :
  notification_edit_sync (ready env p) = notification_edit_sync p /\
  (forall row datetime title,
     notification_edit_sync (syncSheetOnClick_success env row datetime title p) = false) /\
  (forall row,
     notification_edit_sync (deleteSheetOnClick_success row p) = notification_edit_sync p) /\
  (forall e,
     notification_edit_sync p = false ->
     notification_edit_sync (step env e p) = true ->
     exists i m req,
       e = Done i (CreateData m) /\ ajax p !! i = Some req /\
       success req = Some createSuccess /\
       length (tbody (step env e p)) = 1%nat).
Proof.
  assert (forall q row, notification_edit_sync (deleteSheetOnClick_success row q)
                        = notification_edit_sync q) as Hdel.
  { intros q row. pose proof (deleteSheetOnClick_success_banners row q) as H.
    destruct (_ =? 0)%nat; apply pair_equal_spec in H as [_ H]; exact H. }
  assert (forall q, notification_edit_sync (ready env q) = notification_edit_sync q) as Hready.
  { intros q. pose proof (ready_banners q) as H.
    destruct (_ =? 0)%nat; apply pair_equal_spec in H as [_ H]; exact H. }
  split; [apply Hready|]. split; [|split; [apply Hdel|]].
  { intros row datetime title.
    pose proof (syncSheetOnClick_success_banners env row datetime title p) as H.
    now apply pair_equal_spec in H as [_ H]. }
  intros e Hhidden Hshown.
  destruct (step_effect e p) as [p' Hsame| |i req m q -> Hreq Hcb Hq
                                |i req row dt title q _ _ _ Hq|i req row data q _ _ _ Hq].
  - apply displayed_banners in Hsame. unfold banners in Hsame. congruence.
  - rewrite Hready in Hshown. congruence.
  - exists i, m, req. repeat split; try assumption.
    pose proof (createOnClick_success_banners env m q) as H.
    apply pair_equal_spec in H as [_ H].
    rewrite H, <- (createOnClick_success_tbody env m q) in Hshown. now apply Nat.eqb_eq in Hshown.
  - pose proof (syncSheetOnClick_success_banners env row dt title q) as H.
    apply pair_equal_spec in H as [_ H]. congruence.
  - rewrite Hdel in Hshown. apply displayed_banners in Hq. unfold banners in Hq. congruence.
Qed.

(** C1, as the code has it.  The banners are state of the page that three
    routines update, each after its own event; they are not recomputed
    as one function of the row count.  Page load and a successful delete
    show the add banner when no row is in the table and otherwise leave
    both banners as they are; a successful create hides the add banner
    and shows the edit/sync banner exactly when one row is in the table,
    so right after a create the banners are the stated function of the
    row count; a successful sync hides the edit/sync banner and leaves
    the add banner as it is. *)
Theorem banners_follow_event_routines (p : Page) :
  (banners (ready env p) =
     if (length (tbody (ready env p)) =? 0)%nat
     then (true, notification_edit_sync p) else banners p) /\
  (forall row,
     let p' := deleteSheetOnClick_success row p in
     banners p' =
       if (length (tbody p') =? 0)%nat
       then (true, notification_edit_sync p) else banners p) /\
  (forall m,
     let p' := createOnClick_success env m p in
     banners p' = spec_banner_state (length (tbody p'))) /\
  (forall row datetime title,
     banners (syncSheetOnClick_success env row datetime title p)
     = (notification_add p, false)).
Proof.
  split; [|split; [|split]].
  - rewrite ready_tbody. apply ready_banners.
  - intros row p'. subst p'. rewrite deleteSheetOnClick_success_tbody.
    apply deleteSheetOnClick_success_banners.
  - intros m p'. subst p'.
    rewrite createOnClick_success_banners, createOnClick_success_tbody.
    unfold spec_banner_state. f_equal.
    rewrite length_app. cbn [length]. symmetry. apply Nat.eqb_neq. lia.
  - intros row datetime title. apply syncSheetOnClick_success_banners.
Qed.

(** *** What every run keeps true *)

Lemma well_formed_displayed (p q : Page) :
  displayed q = displayed p -> well_formed p -> well_formed q.
Proof.
  unfold displayed. intros [= He Ht Ha _] [H1 H2 H3].
  split; rewrite ?He, ?Ht, ?Ha; assumption.
Qed.

Lemma served_well_formed (rows : list Markup) (add edit_sync : bool) :
  (add = true -> rows = []) -> well_formed (served rows add edit_sync).
Proof.
  intros Hadd. split; cbn [served tbody elements notification_add].
  - apply NoDup_seq.
  - intros n Hn. apply elem_of_seq in Hn. rewrite length_fmap. lia.
  - intros ->. now rewrite (Hadd eq_refl).
Qed.

Lemma step_well_formed (e : Event) (p : Page) :
  well_formed p -> well_formed (step env e p).
Proof.
  intros Hwf.
  destruct (step_effect e p) as [p' Hsame| |i req m q _ _ _ Hq
                                |i req row dt title q _ _ _ Hq|i req row data q _ _ _ Hq].
  - now apply (well_formed_displayed p).
  - destruct Hwf as [H1 H2 H3]. split.
    + now rewrite ready_tbody.
    + rewrite ready_tbody, ready_elements_length. exact H2.
    + rewrite ready_tbody. pose proof (ready_banners p) as Hb.
      destruct (length (tbody p) =? 0)%nat eqn:E.
      * intros _. now apply length_zero_nil.
      * apply pair_equal_spec in Hb as [Hb _]. rewrite Hb. exact H3.
  - apply (well_formed_displayed p q Hq) in Hwf. destruct Hwf as [H1 H2 H3].
    pose proof (createOnClick_success_tbody env m q) as Ht.
    assert (length (elements (createOnClick_success env m q)) = S (length (elements q))) as Hl
      by (rewrite createOnClick_success_elements, length_app; cbn [length]; lia).
    pose proof (createOnClick_success_banners env m q) as Ha.
    apply pair_equal_spec in Ha as [Ha _].
    split.
    + rewrite Ht. apply NoDup_app. split; [assumption|]. split; [|apply NoDup_singleton].
      intros n Hn Hin. apply list_elem_of_singleton in Hin. subst n.
      apply H2 in Hn. lia.
    + intros n. rewrite Ht, Hl, elem_of_app, list_elem_of_singleton.
      intros [Hn| ->]; [apply H2 in Hn|]; lia.
    + rewrite Ha. discriminate.
  - apply (well_formed_displayed p q Hq) in Hwf. destruct Hwf as [H1 H2 H3].
    pose proof (syncSheetOnClick_success_tbody env row dt title q) as Ht.
    pose proof (syncSheetOnClick_success_length env row dt title q) as Hl.
    pose proof (syncSheetOnClick_success_banners env row dt title q) as Ha.
    apply pair_equal_spec in Ha as [Ha _].
    split; rewrite ?Ht, ?Hl, ?Ha; assumption.
  - apply (well_formed_displayed p q Hq) in Hwf. destruct Hwf as [H1 H2 H3].
    destruct (deleteSheetOnClick_success_rest row q) as (He & _).
    pose proof (deleteSheetOnClick_success_banners row q) as Hb.
    split; rewrite deleteSheetOnClick_success_tbody.
    + now apply NoDup_filter.
    + intros n Hn. apply list_elem_of_filter in Hn as [_ Hn].
      rewrite He, length_alter. now apply H2.
    + destruct (length (filter (fun n => n ≠ row) (tbody q)) =? 0)%nat eqn:E.
      * intros _. now apply length_zero_nil.
      * apply pair_equal_spec in Hb as [Hb _]. rewrite Hb. intros Ha.
        now rewrite (H3 Ha).
Qed.

Lemma run_well_formed (events : list Event) :
  forall p, well_formed p -> well_formed (run env events p).
Proof.
  unfold run. induction events as [|e events IH]; intros p Hwf; cbn [foldl]; [assumption|].
  apply IH. now apply step_well_formed.
Qed.

Lemma filter_out_length (row : nat) (l : list nat) :
  NoDup l -> row ∈ l -> S (length (filter (fun n => n ≠ row) l)) = length l.
Proof.
  induction l as [|x l IH]; intros Hnd Hin; [now apply elem_of_nil in Hin|].
  apply NoDup_cons in Hnd as [Hx Hnd].
  destruct (decide (x = row)) as [->|Hne].
  - rewrite filter_cons_False by (intros H; now apply H).
    cbn [length]. f_equal.
    clear IH Hin Hnd. induction l as [|y l IH]; [reflexivity|].
    apply not_elem_of_cons in Hx as [Hy Hx].
    rewrite filter_cons_True by congruence. cbn [length]. now rewrite IH.
  - rewrite filter_cons_True by assumption. cbn [length]. f_equal.
    apply IH; [assumption|]. apply elem_of_cons in Hin as [Hin|Hin]; congruence.
Qed.

(** C2. After every successful delete in a run of the page, the clicked
    row is no longer in the table, the other rows are, in their order and
    as they were (the table is one row shorter when the row was still in
    it), and the add banner is shown if and only if no row remains.  The
    run starts from a page served without the add banner displayed over a
    non-empty table. *)
Theorem delete_success_add_banner_iff_empty (rows : list Markup) (add edit_sync : bool)
    (events : list Event) (i : nat) (data : Data) (req : Ajax Callback) (row : node) :
  (add = true -> rows = []) ->
  let p := run env events (served rows add edit_sync) in
  ajax p !! i = Some req -> success req = Some (deleteSuccess row) ->
  let p' := step env (Done i data) p in
  (row ∉ tbody p') /\
  tbody p' = filter (fun n => n ≠ row) (tbody p) /\
  (row ∈ tbody p -> S (length (tbody p')) = length (tbody p)) /\
  (forall n, n ≠ row -> elements p' !! n = elements p !! n) /\
  (notification_add p' = true <-> tbody p' = []) /\
  (notification_add p' = true <-> length (tbody p') = 0%nat).
Proof.
  intros Hadd p Hreq Hcb p'.
  assert (well_formed p) as Hwf by (apply run_well_formed, served_well_formed, Hadd).
  assert (well_formed p') as Hwf' by now apply step_well_formed.
  assert (p' = deleteSheetOnClick_success row (set_ajax (delete i (ajax p)) p)) as E.
  { unfold p'. now rewrite (step_Done env i data p req _ Hreq Hcb). }
  assert (tbody p' = filter (fun n => n ≠ row) (tbody p)) as Ht
    by (rewrite E, deleteSheetOnClick_success_tbody; reflexivity).
  assert (notification_add p' = true <-> tbody p' = []) as Hiff.
  { split; [apply Hwf'|]. intros Hnil.
    pose proof (deleteSheetOnClick_success_banners row (set_ajax (delete i (ajax p)) p)) as Hb.
    rewrite <- E in Hb. cbn [tbody set_ajax] in Hb. rewrite <- Ht, Hnil in Hb.
    now apply pair_equal_spec in Hb as [Hb _]. }
  split; [|split; [assumption|split; [|split; [|split; [assumption|]]]]].
  - rewrite Ht. intros Hin. apply list_elem_of_filter in Hin as [Hne _]. now apply Hne.
  - intros Hin. rewrite Ht. apply filter_out_length; [apply Hwf|assumption].
  - intros n Hn. rewrite E.
    destruct (deleteSheetOnClick_success_rest row (set_ajax (delete i (ajax p)) p)) as [-> _].
    cbn [elements set_ajax]. now apply list_lookup_alter_ne.
  - rewrite Hiff. split; [intros ->; reflexivity|]. apply length_zero_iff_nil.
Qed.

End SheetListRuns.

(** ** Timestamps on the sheet list page *)

Section Timestamps.
Import Moment Index.

(** C8. For every string [s] in the fixed format [MM-DD-YYYY HH:mm], with
    fields [f]: [convertToLocalDateTime] reads [s] as the UTC time [t] of
    those fields and returns the rendering, in the same format, of the
    calendar fields of [t] in the viewer's zone; those fields are a valid
    date and time that name the local time of [t] (to the minute).  The
    result has no zone in it: read as a timestamp of the same format (when
    its year still has four digits) it is just those local fields.  For a
    viewer in UTC the function returns [s] itself, and so does applying
    it twice. *)
Theorem convertToLocalDateTime_fixed_format (env : Env) (s : string) :
  valid_timestamp s = true ->
  exists f : Fields,
    moment_utc s = Some f /\ render f = s /\
    let t := Date_UTC f in
    let local := fields_of_time (LocalTime (LocalTZA env) t) in
    fields_of_time t = f /\
    convertToLocalDateTime env s = render local /\
    fields_ok local = true /\
    Date_UTC local
      = LocalTime (LocalTZA env) t - LocalTime (LocalTZA env) t mod msPerMinute /\
    (0 <= f_year local <= 9999 ->
       moment_utc (convertToLocalDateTime env s) = Some local /\
       valid_timestamp (convertToLocalDateTime env s) = true) /\
    ((forall u, LocalTZA env u = 0) ->
       convertToLocalDateTime env s = s /\
       convertToLocalDateTime env (convertToLocalDateTime env s) = s).
Proof.
  unfold valid_timestamp. intros Hvalid.
  destruct (moment_utc s) as [f|] eqn:Hs; [clear Hvalid|discriminate].
  exists f. split; [reflexivity|].
  destruct (render_moment_utc s f Hs) as (Hrender & Hok & Hyear).
  split; [assumption|]. cbv zeta.
  set (t := Date_UTC f). set (local := fields_of_time (LocalTime (LocalTZA env) t)).
  pose proof (fields_of_time_Date_UTC f Hok) as Hback. fold t in Hback.
  destruct (Date_UTC_fields_of_time (LocalTime (LocalTZA env) t)) as [Hlocal_ok Hlocal].
  fold local in Hlocal_ok, Hlocal.
  assert (convertToLocalDateTime env s = render local) as Hconv.
  { unfold convertToLocalDateTime. cbv zeta. rewrite Hs. reflexivity. }
  assert ((forall u, LocalTZA env u = 0) -> convertToLocalDateTime env s = s) as Hutc.
  { intros H. rewrite Hconv. unfold local, LocalTime.
    rewrite H, Z.add_0_r, Hback. exact Hrender. }
  repeat split; try assumption.
  - rewrite Hconv. now apply moment_utc_render.
  - rewrite Hconv. now rewrite moment_utc_render.
  - now apply Hutc.
  - now rewrite !Hutc.
Qed.

End Timestamps.

(** ** The settings page *)

Section SettingsPage.
Import JQuery Settings.

Variable env : Env.

Lemma complete_observes_nothing (i : nat) (o : Outcome) (p : Page) :
  notify (complete i o p) = notify p /\
  console (complete i o p) = console p /\
  location (complete i o p) = location p /\
  submit_button (complete i o p) = submit_button p /\
  cancel_button (complete i o p) = cancel_button p.
Proof.
  unfold complete.
  destruct (ajax p !! i) as [req|]; [|now repeat split].
  cbv zeta.
  destruct (match o with Succeeded => success req | Failed _ => error req end) as [[]|].
  now repeat split.
Qed.

(** C7. Submit reads the checkbox as it is at the click, sends exactly one
    request, a POST to the settings URL whose JSON body is the object with
    the one member [notify] set to that boolean, registers no callback
    for it, and sets the window's location to the index URL.  No outcome
    of the request changes where the window was sent: the navigation is
    the same whether the POST succeeds or fails.  Cancel sets the location
    to the index URL and sends nothing. *)
Theorem submitOnClick_posts_and_navigates (p : Page) :
  let p' := submitOnClick env p in
  let body := JObject [("notify"%string, JBool (notify p))] in
  ajax p' =
    ajax p ++ [mkAjax "POST" (url_settings_post env) (Some (JSON_stringify body))
                 (Some "application/json"%string) None None None] /\
  JSON_stringify body =
    String "{" (String dquote ("notify" ++ String dquote (":" ++ string_of_bool (notify p) ++ "}")))
  /\
  location p' = Some (url_index env) /\
  notify p' = notify p /\
  (forall i o, location (step env (Respond i o) p') = Some (url_index env) /\
               notify (step env (Respond i o) p') = notify p /\
               console (step env (Respond i o) p') = console p') /\
  ajax (cancelOnClick env p) = ajax p /\
  location (cancelOnClick env p) = Some (url_index env) /\
  notify (cancelOnClick env p) = notify p.
Proof.
  intros p' body. subst p' body.
  split; [reflexivity|]. split; [now destruct (notify p)|].
  split; [reflexivity|]. split; [reflexivity|].
  split; [|now repeat split].
  intros i o. cbn [step].
  destruct (complete_observes_nothing i o (submitOnClick env p)) as (Hn & Hc & Hl & _).
  now rewrite Hn, Hc, Hl.
Qed.

End SettingsPage.

(** ** The claims on concrete pages *)

Section Examples.
Import Moment JQuery Index.

(** The scenarios of the specification. *)

Example scenario_first_create :
  tbody example_created = [0%nat] /\ banners example_created = (false, true).
Proof. vm_compute. split; reflexivity. Qed.

Example scenario_second_create :
  let p := run example_env [ClickCreate; Done 0 (CreateData example_markup')]
             example_created in
  tbody p = [0%nat; 1%nat] /\ banners p = (false, false).
Proof. vm_compute. split; reflexivity. Qed.

Example scenario_sync :
  let p := run example_env
             [Ready; ClickSync 0; Done 0 (SyncData "01-02-2024 10:00" None)]
             (served [example_markup] false false) in
  elements p !! 0%nat =
    Some (mkRow "abc123" "Tech stocks" "01-02-2024 05:00" 1 1 1).
Proof. vm_compute. reflexivity. Qed.

Example scenario_delete_last :
  tbody example_deleted = [] /\ notification_add example_deleted = true.
Proof. vm_compute. split; reflexivity. Qed.

(** C1, refuted as stated: after the first successful sync of the only
    row, and after the delete of the only row, the banners are not what
    the row count alone would give; and two pages with the same row count
    display different banners. *)
Lemma banners_not_a_function_of_row_count :
  length (tbody example_created) = length (tbody example_synced) /\
  banners example_created ≠ banners example_synced /\
  length (tbody example_synced) = 1%nat /\
  banners example_synced = (false, false) /\
  banners example_synced ≠ spec_banner_state (length (tbody example_synced)) /\
  length (tbody example_deleted) = 0%nat /\
  banners example_deleted = (true, true) /\
  banners example_deleted ≠ spec_banner_state (length (tbody example_deleted)).
Proof. vm_compute. repeat split; try reflexivity; discriminate. Qed.

(** C2 on a page served with two rows, the second one deleted. *)
Lemma delete_success_add_banner_iff_empty_witness :
  (false = true -> [example_markup; example_markup'] = []) /\
  (1%nat ∉ tbody (step example_env (Done 0 AnyData) example_two_rows)) /\
  (notification_add (step example_env (Done 0 AnyData) example_two_rows) = true
   <-> tbody (step example_env (Done 0 AnyData) example_two_rows) = []).
Proof.
  split; [discriminate|].
  destruct (delete_success_add_banner_iff_empty example_env
              [example_markup; example_markup'] false false [Ready; ClickDelete 1]
              0 AnyData
              (mkAjax "POST" "/delete"
                 (Some (JSON_stringify (JObject [("ssheet_id"%string, JString "def456")])))
                 (Some "application/json"%string) (Some "json"%string)
                 (Some (deleteSuccess 1)) (Some accessError))
              1%nat ltac:(discriminate) eq_refl eq_refl)
    as (Hgone & _ & _ & _ & Hiff & _).
  split; [exact Hgone|exact Hiff].
Defined.

(** C6 on the same page, the delete refused with status 403. *)
Lemma request_failure_leaves_page_witness :
  403 ≠ 401 /\
  displayed (step example_env (Fail 0 403) example_two_rows) = displayed example_two_rows /\
  alerts (step example_env (Fail 0 403) example_two_rows)
  = alerts example_two_rows ++ [spec_message 403].
Proof.
  split; [discriminate|].
  destruct (request_failure_leaves_page example_env 0 403 example_two_rows
              (mkAjax "POST" "/delete"
                 (Some (JSON_stringify (JObject [("ssheet_id"%string, JString "def456")])))
                 (Some "application/json"%string) (Some "json"%string)
                 (Some (deleteSuccess 1)) (Some accessError))
              eq_refl eq_refl ltac:(discriminate))
    as (Hd & _ & _ & _ & _ & Ha & _).
  split; [exact Hd|exact Ha].
Defined.

(** C9 on the same page: one row remains after the delete. *)
Lemma deleteSheetOnClick_success_keeps_banners_witness :
  tbody (deleteSheetOnClick_success 1 example_two_rows) ≠ [] /\
  banners (deleteSheetOnClick_success 1 example_two_rows) = banners example_two_rows.
Proof.
  assert (tbody (deleteSheetOnClick_success 1 example_two_rows) ≠ []) as H
    by (vm_compute; discriminate).
  split; [exact H|].
  exact (proj1 (deleteSheetOnClick_success_keeps_banners 1 example_two_rows H)).
Defined.

(** C10 on a first visit: the create that shows the edit/sync banner. *)
Lemma edit_sync_banner_shown_only_by_create_witness :
  notification_edit_sync example_creating = false /\
  notification_edit_sync (step example_env (Done 0 (CreateData example_markup)) example_creating)
  = true /\
  exists i m req,
    Done 0 (CreateData example_markup) = Done i (CreateData m) /\
    ajax example_creating !! i = Some req /\
    success req = Some createSuccess /\
    length (tbody (step example_env (Done 0 (CreateData example_markup)) example_creating))
    = 1%nat.
Proof.
  split; [reflexivity|]. split; [reflexivity|].
  destruct (edit_sync_banner_shown_only_by_create example_env example_creating)
    as (_ & _ & _ & H).
  exact (H (Done 0 (CreateData example_markup)) eq_refl eq_refl).
Defined.

(** C8 on the timestamp of the specification's scenario, for a viewer in
    UTC and for one five hours behind. *)
Lemma convertToLocalDateTime_fixed_format_witness :
  valid_timestamp "01-02-2024 10:00" = true /\
  convertToLocalDateTime example_utc_env "01-02-2024 10:00" = "01-02-2024 10:00"%string /\
  convertToLocalDateTime example_env "01-02-2024 10:00" = "01-02-2024 05:00"%string.
Proof.
  split; [reflexivity|]. split; [|reflexivity].
  destruct (convertToLocalDateTime_fixed_format example_utc_env "01-02-2024 10:00" eq_refl)
    as (f & _ & _ & H).
  destruct H as (_ & _ & _ & _ & _ & Hutc).
  exact (proj1 (Hutc (fun _ => eq_refl))).
Defined.

(** The settings page, submitted with the box checked. *)
Example scenario_submit :
  let p := Settings.step Settings.example_env Settings.ClickSubmit
             (Settings.step Settings.example_env Settings.Ready (Settings.served true)) in
  data <$> Settings.ajax p
    = [Some (String "{" (String dquote ("notify" ++ String dquote ":true}")))] /\
  Settings.location p = Some "/"%string /\
  Settings.location
    (Settings.step Settings.example_env (Settings.Respond 0 (Settings.Failed 500)) p)
    = Some "/"%string.
Proof. vm_compute. repeat split; reflexivity. Qed.

End Examples.

(** * Further properties of the sheet list page *)

Section Responses.
Import JQuery Index.

Variable env : Env.

(** *** The success callbacks as functions of the whole page *)

Lemma Page_eq (p q : Page) :
  elements p = elements q -> tbody p = tbody q ->
  notification_add p = notification_add q ->
  notification_edit_sync p = notification_edit_sync q ->
  create_sheet_button p = create_sheet_button q -> ajax p = ajax q ->
  alerts p = alerts q -> reloads p = reloads q -> windows p = windows q ->
  p = q.
Proof. destruct p, q; cbn; intros; congruence. Qed.

Lemma syncSheetOnClick_success_page (row : node) (datetime : string)
    (title : option string) (p : Page) :
  syncSheetOnClick_success env row datetime title p =
  set_notification_edit_sync false
    (set_elements (alter (synced env datetime title) row (elements p)) p).
Proof.
  unfold syncSheetOnClick_success, processNotificationsOnSync. cbv zeta.
  destruct title as [t|]; apply Page_eq; try reflexivity.
  cbn [elements set_notification_edit_sync set_elements sheet_title_text utc_datetime_text].
  rewrite list_alter_alter_eq. reflexivity.
Qed.

Lemma deleteSheetOnClick_success_page (row : node) (p : Page) :
  deleteSheetOnClick_success row p =
  let tb := filter (fun n => n ≠ row) (tbody p) in
  mkPage (alter unbind_clicks row (elements p)) tb
    (if (length tb =? 0)%nat then true else notification_add p)
    (notification_edit_sync p) (create_sheet_button p) (ajax p) (alerts p)
    (reloads p) (windows p).
Proof.
  unfold deleteSheetOnClick_success, processNotificationsOnLoadOnDelete, remove. cbv zeta.
  cbn [tbody set_tbody set_elements].
  now destruct (length (filter (fun n => n ≠ row) (tbody p)) =? 0)%nat.
Qed.

Lemma filter_out_twice (a b : nat) (l : list nat) :
  filter (fun n => n ≠ a) (filter (fun n => n ≠ b) l)
  = filter (fun n => n ≠ b) (filter (fun n => n ≠ a) l).
Proof.
  induction l as [|x l IH]; [reflexivity|].
  destruct (decide (x = a)) as [Ha|Ha], (decide (x = b)) as [Hb|Hb];
    repeat first [rewrite filter_cons_True by assumption
                 |rewrite filter_cons_False by (intros H; now apply H)];
    congruence.
Qed.

Lemma filter_out_again (a : nat) (l : list nat) :
  filter (fun n => n ≠ a) (filter (fun n => n ≠ a) l) = filter (fun n => n ≠ a) l.
Proof.
  induction l as [|x l IH]; [reflexivity|].
  destruct (decide (x = a)) as [Ha|Ha];
    repeat first [rewrite filter_cons_True by assumption
                 |rewrite filter_cons_False by (intros H; now apply H)];
    congruence.
Qed.

Lemma filter_out_nil (a b : nat) (l : list nat) :
  filter (fun n => n ≠ b) l = [] ->
  filter (fun n => n ≠ a) (filter (fun n => n ≠ b) l) = [].
Proof. now intros ->. Qed.

(** X7. A second success of a delete of the same row changes nothing: the
    callback is idempotent, as a function of the whole page. *)
Theorem deleteSheetOnClick_success_idempotent (row : node) (p : Page) :
  deleteSheetOnClick_success row (deleteSheetOnClick_success row p)
  = deleteSheetOnClick_success row p.
Proof.
  rewrite !deleteSheetOnClick_success_page. cbv zeta.
  cbn [elements tbody notification_add notification_edit_sync create_sheet_button
       ajax alerts reloads windows].
  rewrite filter_out_again.
  apply Page_eq; cbn [elements tbody notification_add notification_edit_sync
                      create_sheet_button ajax alerts reloads windows]; try reflexivity.
  - rewrite list_alter_alter_eq. apply list_alter_ext; [|reflexivity].
    now intros r _.
  - now destruct (_ =? 0)%nat.
Qed.

(** X8. Two successful syncs of one row compose into one: the later
    response gives the timestamp, and the title too when it has one;
    otherwise the title of the earlier response stays. *)
Theorem syncSheetOnClick_success_twice (row : node) (datetime1 datetime2 : string)
    (title1 title2 : option string) (p : Page) :
  syncSheetOnClick_success env row datetime2 title2
    (syncSheetOnClick_success env row datetime1 title1 p)
  = syncSheetOnClick_success env row datetime2
      (match title2 with Some _ => title2 | None => title1 end) p.
Proof.
  rewrite !syncSheetOnClick_success_page.
  apply Page_eq; cbn [elements tbody notification_add notification_edit_sync
                      create_sheet_button ajax alerts reloads windows
                      set_notification_edit_sync set_elements]; try reflexivity.
  rewrite list_alter_alter_eq. apply list_alter_ext; [|reflexivity].
  intros r _. now destruct title1, title2.
Qed.

(** X9. Responses to requests in flight can arrive in either order: two
    successful syncs of different rows commute, a successful sync and a
    successful delete commute (of the same row too), and so do two
    successful deletes. *)
Theorem sync_and_delete_responses_commute (p : Page) :
  (forall row1 row2 datetime1 datetime2 title1 title2,
     row1 ≠ row2 ->
     syncSheetOnClick_success env row1 datetime1 title1
       (syncSheetOnClick_success env row2 datetime2 title2 p)
     = syncSheetOnClick_success env row2 datetime2 title2
         (syncSheetOnClick_success env row1 datetime1 title1 p)) /\
  (forall row1 row2 datetime title,
     syncSheetOnClick_success env row1 datetime title (deleteSheetOnClick_success row2 p)
     = deleteSheetOnClick_success row2 (syncSheetOnClick_success env row1 datetime title p)) /\
  (forall row1 row2,
     deleteSheetOnClick_success row1 (deleteSheetOnClick_success row2 p)
     = deleteSheetOnClick_success row2 (deleteSheetOnClick_success row1 p)).
Proof.
  split; [|split].
  - intros row1 row2 d1 d2 t1 t2 Hne.
    rewrite !syncSheetOnClick_success_page.
    apply Page_eq; cbn [elements tbody notification_add notification_edit_sync
                        create_sheet_button ajax alerts reloads windows
                        set_notification_edit_sync set_elements]; try reflexivity.
    now apply list_alter_alter_ne.
  - intros row1 row2 d t.
    rewrite !syncSheetOnClick_success_page, !deleteSheetOnClick_success_page. cbv zeta.
    apply Page_eq; cbn [elements tbody notification_add notification_edit_sync
                        create_sheet_button ajax alerts reloads windows
                        set_notification_edit_sync set_elements]; try reflexivity.
    destruct (decide (row1 = row2)) as [->|Hne].
    + rewrite !list_alter_alter_eq. apply list_alter_ext; [|reflexivity].
      now intros r _.
    + now apply list_alter_alter_ne.
  - intros row1 row2.
    rewrite !deleteSheetOnClick_success_page. cbv zeta.
    cbn [elements tbody notification_add notification_edit_sync create_sheet_button
         ajax alerts reloads windows].
    rewrite (filter_out_twice row1 row2).
    apply Page_eq; cbn [elements tbody notification_add notification_edit_sync
                        create_sheet_button ajax alerts reloads windows]; try reflexivity.
    + destruct (decide (row1 = row2)) as [->|Hne]; [reflexivity|].
      now apply list_alter_alter_ne.
    + destruct (length (filter (fun n => n ≠ row2) (filter (fun n => n ≠ row1) (tbody p))) =? 0)%nat
        eqn:E; [reflexivity|].
      assert (filter (fun n => n ≠ row2) (tbody p) ≠ []) as H2.
      { intros H. apply (filter_out_nil row1) in H. rewrite filter_out_twice in H.
        rewrite H in E. discriminate. }
      assert (filter (fun n => n ≠ row1) (tbody p) ≠ []) as H1.
      { intros H. apply (filter_out_nil row2) in H. rewrite H in E. discriminate. }
      destruct (filter (fun n => n ≠ row2) (tbody p)); [contradiction|].
      destruct (filter (fun n => n ≠ row1) (tbody p)); [contradiction|]. reflexivity.
Qed.

End Responses.

Section Loading.
Import JQuery Index.

Variable env : Env.

(** *** Page load on the served table *)

Lemma alter_middle {A : Type} (f : A -> A) (pre l : list A) (x : A) :
  alter f (length pre) (pre ++ x :: l) = pre ++ f x :: l.
Proof.
  rewrite alter_app_r_alt by lia. now rewrite Nat.sub_diag.
Qed.

Lemma text_each_seq (f : nat -> string -> string) (g : string -> string) :
  (forall i s, f i s = g s) ->
  forall (l pre : list Row) (i : nat),
    text_each f i (seq (length pre) (length l)) (pre ++ l)
    = pre ++ ((fun r => set_utc_datetime (g (utc_datetime r)) r) <$> l).
Proof.
  intros Hf l. induction l as [|x l IH]; intros pre i; [reflexivity|].
  cbn [length seq text_each fmap list_fmap].
  rewrite alter_middle, Hf.
  specialize (IH (pre ++ [set_utc_datetime (g (utc_datetime x)) x]) (S i)).
  rewrite length_app, <- !app_assoc in IH. cbn [length app] in IH.
  replace (length pre + 1)%nat with (S (length pre)) in IH by lia.
  exact IH.
Qed.

Lemma bind_each_seq {A : Type} (f : A -> A) :
  forall (l pre : list A),
    foldl (fun els n => alter f n els) (pre ++ l) (seq (length pre) (length l))
    = pre ++ (f <$> l).
Proof.
  intros l. induction l as [|x l IH]; intros pre; [reflexivity|].
  cbn [length seq foldl fmap list_fmap].
  rewrite alter_middle.
  specialize (IH (pre ++ [f x])).
  rewrite length_app, <- !app_assoc in IH. cbn [length app] in IH.
  replace (length pre + 1)%nat with (S (length pre)) in IH by lia.
  exact IH.
Qed.

Lemma ready_on_served (rows : list Markup) (add edit_sync : bool) :
  ready env (served rows add edit_sync)
  = mkPage (loaded env <$> rows) (seq 0 (length rows))
      (match rows with [] => true | _ :: _ => add end) edit_sync 1 [] [] 0 [].
Proof.
  unfold ready, processNotificationsOnLoadOnDelete, served. cbv zeta.
  cbn [tbody utc_datetime_text_fn set_elements elements].
  rewrite length_seq.
  assert (elements_ok :
    foldl (fun els n => alter bind_clicks n els)
      (text_each (updateDateTimes env) 0 (seq 0 (length rows)) (element <$> rows))
      (seq 0 (length rows))
    = loaded env <$> rows).
  { pose proof (text_each_seq (updateDateTimes env) (convertToLocalDateTime env)
                  (fun _ _ => eq_refl) (element <$> rows) [] 0%nat) as Ht.
    rewrite length_fmap in Ht. cbn [length app] in Ht. rewrite Ht.
    pose proof (bind_each_seq bind_clicks
                  ((fun r => set_utc_datetime (convertToLocalDateTime env (utc_datetime r)) r)
                     <$> (element <$> rows)) []) as Hb.
    rewrite !length_fmap in Hb. cbn [length app] in Hb. rewrite Hb.
    rewrite <- !list_fmap_compose. reflexivity. }
  destruct rows as [|m rows]; [reflexivity|].
  cbn [length Nat.eqb].
  apply Page_eq; try reflexivity.
  cbn [elements wireRowClickHandlers set_elements set_create_sheet_button tbody].
  exact elements_ok.
Qed.

(** X4. Page load on the page as served: every row of the table has its
    timestamp converted to local time once and one handler bound to each
    of its buttons, its identifier and title are as served and the rows
    keep their order; the create button gets its handler; the add banner
    is shown when the table is empty and is otherwise as served; nothing
    is sent, alerted or opened. *)
Theorem ready_served (rows : list Markup) (add edit_sync : bool) :
  ready env (served rows add edit_sync)
  = mkPage (loaded env <$> rows) (seq 0 (length rows))
      (match rows with [] => true | _ :: _ => add end) edit_sync 1 [] [] 0 [].
Proof. apply ready_on_served. Qed.

(** *** Create, then delete *)

Lemma filter_out_fresh (row : nat) (l : list nat) :
  row ∉ l -> filter (fun n => n ≠ row) (l ++ [row]) = l.
Proof.
  intros H. rewrite filter_app.
  rewrite (filter_cons_False _ row []) by (intros E; now apply E).
  rewrite filter_nil, app_nil_r.
  induction l as [|x l IH]; [reflexivity|].
  apply not_elem_of_cons in H as [Hx H].
  rewrite filter_cons_True by congruence. now rewrite IH.
Qed.

Lemma createOnClick_success_page (m : Markup) (p : Page) :
  createOnClick_success env m p
  = mkPage (elements p ++ [loaded env m]) (tbody p ++ [length (elements p)])
      false (length (tbody p ++ [length (elements p)]) =? 1)%nat
      (create_sheet_button p) (ajax p) (alerts p) (reloads p) (windows p).
Proof.
  destruct (createOnClick_success_rest env m p) as (H1 & H2 & H3 & H4 & H5).
  pose proof (createOnClick_success_banners env m p) as Hb.
  apply pair_equal_spec in Hb as [Ha He].
  apply Page_eq; try assumption.
  - apply createOnClick_success_elements.
  - apply createOnClick_success_tbody.
Qed.

(** X10. Deleting the row a create has just added gives back the table
    as it was before the create, with every earlier row element as it
    was; the add banner is then shown exactly when that table is empty,
    and in that case the edit/sync banner the create showed is still
    shown. *)
Theorem create_then_delete_restores_table (m : Markup) (p : Page) :
  (forall n, n ∈ tbody p -> (n < length (elements p))%nat) ->
  let row := length (elements p) in
  let p' := deleteSheetOnClick_success row (createOnClick_success env m p) in
  tbody p' = tbody p /\
  (forall n r, elements p !! n = Some r -> elements p' !! n = Some r) /\
  notification_add p' = (length (tbody p) =? 0)%nat /\
  notification_edit_sync p' = (length (tbody p) =? 0)%nat.
Proof.
  intros Hbound row p'. subst p' row.
  rewrite deleteSheetOnClick_success_page, createOnClick_success_page. cbv zeta.
  cbn [elements tbody notification_add notification_edit_sync].
  assert (length (elements p) ∉ tbody p) as Hfresh
    by (intros H; apply Hbound in H; lia).
  rewrite (filter_out_fresh _ _ Hfresh).
  split; [reflexivity|]. split; [|split].
  - intros n r Hn.
    assert (n < length (elements p))%nat by (eapply lookup_lt_Some; eassumption).
    rewrite list_lookup_alter_ne by lia. now apply lookup_app_l_Some.
  - now destruct (length (tbody p) =? 0)%nat.
  - rewrite length_app. cbn [length].
    destruct (tbody p) as [|? l]; [reflexivity|]. cbn [length].
    apply Nat.eqb_neq. lia.
Qed.

End Loading.

Section Machine.
Import JQuery Index.

Variable env : Env.

(** *** An induction principle for the steps of the page *)

Lemma trigger_preserves {S : Type} (P : S -> Prop) (handler : S -> S) :
  (forall s, P s -> P (handler s)) ->
  forall bound s, P s -> P (trigger bound handler s).
Proof.
  intros H bound. induction bound as [|k IH]; intros s Hs; cbn [trigger]; auto.
Qed.

Section Preservation.
Variable P : Page -> Prop.
Hypothesis P_createOnClick : forall p, P p -> P (createOnClick env p).
Hypothesis P_visitSheetOnClick : forall row p, P p -> P (visitSheetOnClick row p).
Hypothesis P_syncSheetOnClick : forall row p, P p -> P (syncSheetOnClick env row p).
Hypothesis P_deleteSheetOnClick : forall row p, P p -> P (deleteSheetOnClick env row p).
Hypothesis P_completed : forall i p, P p -> P (set_ajax (delete i (ajax p)) p).
Hypothesis P_create : forall m p, P p -> P (createOnClick_success env m p).
Hypothesis P_sync :
  forall row datetime title p, P p -> P (syncSheetOnClick_success env row datetime title p).
Hypothesis P_delete : forall row p, P p -> P (deleteSheetOnClick_success row p).
Hypothesis P_error : forall status p, P p -> P (informUserOfSheetAccessError status p).

Lemma step_preserves (e : Event) (p : Page) :
  (e = Ready -> P (ready env p)) -> P p -> P (step env e p).
Proof.
  intros Hready Hp.
  destruct e as [| |row|row|row|i data|i status]; cbn [step].
  - now apply Hready.
  - apply (trigger_preserves P); auto.
  - unfold click_row. destruct (decide _); [|assumption].
    destruct (elements p !! row); [|assumption]. apply (trigger_preserves P); auto.
  - unfold click_row. destruct (decide _); [|assumption].
    destruct (elements p !! row); [|assumption]. apply (trigger_preserves P); auto.
  - unfold click_row. destruct (decide _); [|assumption].
    destruct (elements p !! row); [|assumption]. apply (trigger_preserves P); auto.
  - unfold complete. destruct (ajax p !! i) as [req|]; [|assumption].
    destruct (success req) as [[|row|row|]|]; cbn [on_success];
      try destruct data; auto.
  - unfold complete. destruct (ajax p !! i) as [req|]; [|assumption].
    destruct (error req) as [[|row|row|]|]; cbn [on_error]; unfold ajax_error; auto.
Qed.

Lemma run_preserves (events : list Event) :
  (Ready ∈ events -> forall p, P p -> P (ready env p)) ->
  forall p, P p -> P (run env events p).
Proof.
  unfold run. induction events as [|e events IH]; intros Hready p Hp; cbn [foldl]; [assumption|].
  apply IH.
  - intros Hin. apply Hready. apply elem_of_cons; now right.
  - apply step_preserves; [|assumption].
    intros ->. apply Hready; [apply elem_of_cons; now left|assumption].
Qed.

End Preservation.

(** *** Handlers are bound once *)

Lemma wired_same (p q : Page) :
  elements q = elements p -> tbody q = tbody p ->
  create_sheet_button q = create_sheet_button p -> wired p -> wired q.
Proof.
  intros He Ht Hc [H1 H2 H3]. split; rewrite ?He, ?Ht, ?Hc; assumption.
Qed.

Lemma wired_step (e : Event) (p : Page) : e ≠ Ready -> wired p -> wired (step env e p).
Proof.
  intros He. apply step_preserves.
  - intros q. now apply wired_same.
  - intros row q. now apply wired_same.
  - intros row q. now apply wired_same.
  - intros row q. now apply wired_same.
  - intros i q. now apply wired_same.
  - intros m q [H1 H2 H3]. rewrite createOnClick_success_page.
    assert (forall n, n ∈ tbody q -> (n < length (elements q))%nat) as Hbound.
    { intros n Hn. destruct (H2 n Hn) as (r & Hr & _). eapply lookup_lt_Some. eassumption. }
    split; cbn [tbody elements create_sheet_button].
    + apply NoDup_app. split; [assumption|]. split; [|apply NoDup_singleton].
      intros n Hn Hin. apply list_elem_of_singleton in Hin. subst n.
      apply Hbound in Hn. lia.
    + intros n Hn. apply elem_of_app in Hn as [Hn|Hn].
      * destruct (H2 n Hn) as (r & Hr & Hh). exists r.
        split; [now apply lookup_app_l_Some|assumption].
      * apply list_elem_of_singleton in Hn. subst n. exists (loaded env m).
        split; [|now repeat split].
        rewrite lookup_app_r by lia. now rewrite Nat.sub_diag.
    + assumption.
  - intros row datetime title q [H1 H2 H3]. rewrite syncSheetOnClick_success_page.
    split; cbn [tbody elements create_sheet_button set_notification_edit_sync set_elements];
      try assumption.
    intros n Hn. destruct (H2 n Hn) as (r & Hr & Hh).
    destruct (decide (row = n)) as [->|Hne].
    + exists (synced env datetime title r). rewrite list_lookup_alter_eq, Hr.
      split; [reflexivity|exact Hh].
    + exists r. rewrite list_lookup_alter_ne by assumption. now split.
  - intros row q [H1 H2 H3]. rewrite deleteSheetOnClick_success_page. cbv zeta.
    split; cbn [tbody elements create_sheet_button]; try assumption.
    + now apply NoDup_filter.
    + intros n Hn. apply list_elem_of_filter in Hn as [Hne Hn].
      destruct (H2 n Hn) as (r & Hr & Hh). exists r.
      rewrite list_lookup_alter_ne by congruence. now split.
  - intros status q Hq. apply (wired_same q); try assumption;
      unfold informUserOfSheetAccessError;
      now destruct (status =? 401), (status =? 403), (status =? 404), (status =? 400).
  - intros E. contradiction.
Qed.

Lemma wired_ready_served (rows : list Markup) (add edit_sync : bool) :
  wired (ready env (served rows add edit_sync)).
Proof.
  rewrite ready_on_served. split; cbn [tbody elements create_sheet_button].
  - apply NoDup_seq.
  - intros n Hn. apply elem_of_seq in Hn.
    destruct (lookup_lt_is_Some_2 rows n ltac:(lia)) as [m Hm].
    exists (loaded env m). rewrite list_lookup_fmap, Hm. now repeat split.
  - reflexivity.
Qed.

Lemma wired_run (events : list Event) :
  Ready ∉ events -> forall p, wired p -> wired (run env events p).
Proof.
  unfold run. induction events as [|e events IH]; intros Hno p Hp; cbn [foldl]; [assumption|].
  apply not_elem_of_cons in Hno as [Hne Hno].
  apply IH; [assumption|]. apply wired_step; [congruence|assumption].
Qed.

Lemma wired_in_run (rows : list Markup) (add edit_sync : bool) (events : list Event) :
  Ready ∉ events ->
  wired (run env (Ready :: events) (served rows add edit_sync)).
Proof.
  intros Hno. change (wired (run env events (ready env (served rows add edit_sync)))).
  apply wired_run; [assumption|]. apply wired_ready_served.
Qed.

(** X1. In every run of the page (page load first, then any clicks,
    responses and failures), each row of the table has exactly one handler
    on each of its three buttons, the create button has exactly one, and
    no row is listed twice: the served rows are wired once by page load,
    a created row once by the create callback, and nothing wires again. *)
Theorem handlers_bound_once (rows : list Markup) (add edit_sync : bool)
    (events : list Event) :
  Ready ∉ events ->
  let p := run env (Ready :: events) (served rows add edit_sync) in
  NoDup (tbody p) /\
  (forall n, n ∈ tbody p ->
     exists r, elements p !! n = Some r /\
       visit_sheet r = 1%nat /\ sync_sheet r = 1%nat /\ delete_sheet r = 1%nat) /\
  create_sheet_button p = 1%nat.
Proof.
  intros Hno p. destruct (wired_in_run rows add edit_sync events Hno) as [H1 H2 H3].
  now repeat split.
Qed.

(** X2. In every run, a click on the visit button of a row of the table
    opens exactly one window, in a new tab, at the Google Sheets address
    of that row's identifier; it sends no request and changes nothing
    else of the page. *)
Theorem visit_click_opens_one_window (rows : list Markup) (add edit_sync : bool)
    (events : list Event) (row : node) :
  Ready ∉ events ->
  let p := run env (Ready :: events) (served rows add edit_sync) in
  row ∈ tbody p ->
  exists r, elements p !! row = Some r /\
    step env (ClickVisit row) p
    = window_open ("https://docs.google.com/spreadsheets/d/" ++ ssheet_id r) "_blank" p.
Proof.
  intros Hno p Hrow.
  assert (wired p) as [_ Hrows _] by now apply wired_in_run.
  destruct (Hrows row Hrow) as (r & Hr & Hv & _).
  exists r. split; [assumption|].
  cbn [step]. unfold click_row.
  destruct (decide (row ∈ tbody p)) as [_|Hn]; [|now destruct Hn].
  rewrite Hr, Hv. cbn [trigger]. unfold visitSheetOnClick, attr_ssheet_id. now rewrite Hr.
Qed.

(** X3. In every run, a click on the sync or on the delete button of a
    row of the table sends exactly one request: a POST to the sync (or
    delete) address whose JSON body carries that row's identifier, with
    the callbacks for that row; a click on the create button sends exactly
    one GET to the create address.  A click changes nothing else of the
    page. *)
Theorem click_sends_one_request (rows : list Markup) (add edit_sync : bool)
    (events : list Event) (row : node) :
  Ready ∉ events ->
  let p := run env (Ready :: events) (served rows add edit_sync) in
  row ∈ tbody p ->
  exists r, elements p !! row = Some r /\
    step env (ClickSync row) p
    = jquery_ajax
        (mkAjax "POST" (url_sync env)
           (Some (JSON_stringify (JObject [("ssheet_id"%string, JString (ssheet_id r))])))
           (Some "application/json"%string) (Some "json"%string)
           (Some (syncSuccess row)) (Some accessError)) p /\
    step env (ClickDelete row) p
    = jquery_ajax
        (mkAjax "POST" (url_delete env)
           (Some (JSON_stringify (JObject [("ssheet_id"%string, JString (ssheet_id r))])))
           (Some "application/json"%string) (Some "json"%string)
           (Some (deleteSuccess row)) (Some accessError)) p /\
    step env ClickCreate p
    = jquery_ajax
        (mkAjax "GET" (url_create env) None None (Some "json"%string)
           (Some createSuccess) (Some accessError)) p.
Proof.
  intros Hno p Hrow.
  assert (wired p) as [_ Hrows Hcreate] by now apply wired_in_run.
  destruct (Hrows row Hrow) as (r & Hr & _ & Hs & Hd).
  exists r. split; [assumption|].
  cbn [step]. unfold click_row.
  destruct (decide (row ∈ tbody p)) as [_|Hn]; [|now destruct Hn].
  rewrite Hr, Hs, Hd, Hcreate. cbn [trigger].
  unfold syncSheetOnClick, deleteSheetOnClick, createOnClick, attr_ssheet_id.
  now rewrite Hr.
Qed.

End Machine.

Section Lifetime.
Import JQuery Index.

Variable env : Env.

(** *** What a run never changes *)

(** [r'] is [r] but for its texts and handlers. *)
Lemma alter_keeps_id (f : Row -> Row) (i : nat) (l : list Row) :
  (forall r, ssheet_id (f r) = ssheet_id r) ->
  forall n r, l !! n = Some r ->
    exists r', alter f i l !! n = Some r' /\ ssheet_id r' = ssheet_id r.
Proof.
  intros Hf n r Hn. destruct (decide (i = n)) as [->|Hne].
  - exists (f r). rewrite list_lookup_alter_eq, Hn. now split.
  - exists r. rewrite list_lookup_alter_ne by assumption. now split.
Qed.

Lemma text_each_keeps_id (f : nat -> string -> string) (sel : list node) :
  forall i l n r, l !! n = Some r ->
    exists r', text_each f i sel l !! n = Some r' /\ ssheet_id r' = ssheet_id r.
Proof.
  induction sel as [|k sel IH]; intros i l n r Hn; cbn [text_each]; [now exists r|].
  destruct (alter_keeps_id (fun r => set_utc_datetime (f i (utc_datetime r)) r) k l
              (fun _ => eq_refl) n r Hn) as (r1 & H1 & E1).
  destruct (IH (S i) _ n r1 H1) as (r2 & H2 & E2).
  exists r2. split; [assumption|congruence].
Qed.

Lemma bind_each_keeps_id (sel : list node) :
  forall (l : list Row) (n : nat) (r : Row), l !! n = Some r ->
    exists r', foldl (fun els k => alter bind_clicks k els) l sel !! n = Some r' /\
               ssheet_id r' = ssheet_id r.
Proof.
  induction sel as [|k sel IH]; intros l n r Hn; cbn [foldl]; [now exists r|].
  destruct (alter_keeps_id bind_clicks k l (fun _ => eq_refl) n r Hn) as (r1 & H1 & E1).
  destruct (IH _ n r1 H1) as (r2 & H2 & E2).
  exists r2. split; [assumption|congruence].
Qed.

Lemma ready_keeps_id (p : Page) (n : nat) (r : Row) :
  elements p !! n = Some r ->
  exists r', elements (ready env p) !! n = Some r' /\ ssheet_id r' = ssheet_id r.
Proof.
  intros Hn. unfold ready, processNotificationsOnLoadOnDelete. cbv zeta.
  destruct (text_each_keeps_id (updateDateTimes env) (tbody p) 0 _ n r Hn) as (r1 & H1 & E1).
  destruct (bind_each_keeps_id (tbody p) _ n r1 H1) as (r2 & H2 & E2).
  exists r2. split; [|congruence].
  match goal with |- context [if ?b then _ else _] => destruct b end; exact H2.
Qed.

(** X5. A row element keeps its spreadsheet identifier for as long as the
    page lives: whatever events follow (page load, clicks, creates, syncs,
    deletes, failures), the element is still in the page, with the
    identifier it had.  Syncing changes texts, deleting detaches; nothing
    rewrites the [ssheet-id] attribute, so a request sent on a later click
    carries the identifier the row was served or created with. *)
Theorem ssheet_id_never_changes (events : list Event) (p : Page) (n : nat) (r : Row) :
  elements p !! n = Some r ->
  exists r', elements (run env events p) !! n = Some r' /\ ssheet_id r' = ssheet_id r.
Proof.
  intros Hn.
  apply (run_preserves env
           (fun q => exists r', elements q !! n = Some r' /\ ssheet_id r' = ssheet_id r)).
  - now intros q.
  - now intros row q.
  - now intros row q.
  - now intros row q.
  - now intros i q.
  - intros m q (r1 & H1 & E1). rewrite createOnClick_success_page. cbn [elements].
    exists r1. split; [now apply lookup_app_l_Some|assumption].
  - intros row datetime title q (r1 & H1 & E1). rewrite syncSheetOnClick_success_page.
    cbn [elements set_notification_edit_sync set_elements].
    destruct (alter_keeps_id (synced env datetime title) row (elements q)
                (fun _ => eq_refl) n r1 H1) as (r2 & H2 & E2).
    exists r2. split; [assumption|congruence].
  - intros row q (r1 & H1 & E1). rewrite deleteSheetOnClick_success_page. cbv zeta.
    cbn [elements].
    destruct (alter_keeps_id unbind_clicks row (elements q)
                (fun _ => eq_refl) n r1 H1) as (r2 & H2 & E2).
    exists r2. split; [assumption|congruence].
  - intros status q H. unfold informUserOfSheetAccessError.
    now destruct (status =? 401), (status =? 403), (status =? 404), (status =? 400).
  - intros _ q (r1 & H1 & E1).
    destruct (ready_keeps_id q n r1 H1) as (r2 & H2 & E2).
    exists r2. split; [assumption|congruence].
  - now exists r.
Qed.

(** X6. The table changes only when a create or a delete succeeds: every
    step of the page leaves the list of rows as it is, or is the success
    of a create request in flight and appends one new node, or is the
    success of a delete request in flight and removes that request's
    row.  Page load, clicks, syncs and failures never add, remove or
    reorder rows. *)
Theorem table_changes_only_on_create_or_delete (e : Event) (p : Page) :
  tbody (step env e p) = tbody p \/
  (exists i m req,
     e = Done i (CreateData m) /\ ajax p !! i = Some req /\
     success req = Some createSuccess /\
     tbody (step env e p) = tbody p ++ [length (elements p)]) \/
  (exists i data req row,
     e = Done i data /\ ajax p !! i = Some req /\
     success req = Some (deleteSuccess row) /\
     tbody (step env e p) = filter (fun n => n ≠ row) (tbody p)).
Proof.
  destruct (step_effect env e p) as [p' Hsame| |i req m q -> Hreq Hcb Hq
                                    |i req row dt title q _ _ _ Hq
                                    |i req row data q -> Hreq Hcb Hq].
  - left. now apply displayed_tbody.
  - left. apply ready_tbody.
  - right; left. exists i, m, req. repeat split; try assumption.
    rewrite createOnClick_success_tbody.
    unfold displayed in Hq. now injection Hq as -> -> _ _.
  - left. rewrite syncSheetOnClick_success_page. now apply displayed_tbody in Hq.
  - right; right. exists i, data, req, row. repeat split; try assumption.
    rewrite deleteSheetOnClick_success_tbody. now apply displayed_tbody in Hq as ->.
Qed.

(** *** Alerts, reloads and windows *)

Lemma informUserOfSheetAccessError_401 (p : Page) :
  informUserOfSheetAccessError 401 p = location_reload p.
Proof. reflexivity. Qed.

(** X11. What reaches the user outside the table has one source each: an
    alert is added only by a failure with a status other than 401, and
    then it is the one message of that status; the page is reloaded only
    by a failure with status 401; a window is opened only by a click on
    the visit button of a row of the table.  No success callback, and no
    page load, alerts, reloads or opens anything. *)
Theorem alerts_reloads_windows_sources (e : Event) (p : Page) :
  (alerts (step env e p) = alerts p \/
   exists i status, e = Fail i status /\ status ≠ 401 /\
     alerts (step env e p) = alerts p ++ [spec_message status]) /\
  (reloads (step env e p) = reloads p \/
   exists i, e = Fail i 401 /\ reloads (step env e p) = S (reloads p)) /\
  (windows (step env e p) = windows p \/
   exists row, e = ClickVisit row /\ row ∈ tbody p).
Proof.
  destruct e as [| |row|row|row|i data|i status]; cbn [step].
  - unfold ready, processNotificationsOnLoadOnDelete. cbv zeta.
    match goal with |- context [if ?b then _ else _] => destruct b end;
      repeat split; now left.
  - repeat split; left; now apply trigger_invariant.
  - split; [|split].
    + left. unfold click_row. destruct (decide _); [|reflexivity].
      destruct (elements p !! row); [|reflexivity]. now apply trigger_invariant.
    + left. unfold click_row. destruct (decide _); [|reflexivity].
      destruct (elements p !! row); [|reflexivity]. now apply trigger_invariant.
    + unfold click_row. destruct (decide (row ∈ tbody p)); [|now left].
      right. now exists row.
  - repeat split; left; unfold click_row; (destruct (decide _); [|reflexivity]);
      (destruct (elements p !! row); [|reflexivity]); now apply trigger_invariant.
  - repeat split; left; unfold click_row; (destruct (decide _); [|reflexivity]);
      (destruct (elements p !! row); [|reflexivity]); now apply trigger_invariant.
  - unfold complete. destruct (ajax p !! i) as [req|]; [|repeat split; now left].
    destruct (success req) as [[|row|row|]|]; cbn [on_success];
      try destruct data as [m|datetime title|];
      rewrite ?createOnClick_success_page, ?syncSheetOnClick_success_page,
        ?deleteSheetOnClick_success_page;
      repeat split; now left.
  - unfold complete. destruct (ajax p !! i) as [req|]; [|repeat split; now left].
    destruct (error req) as [[|row|row|]|]; cbn [on_error];
      try (repeat split; now left).
    unfold ajax_error. destruct (Z.eq_dec status 401) as [->|Hne].
    + rewrite informUserOfSheetAccessError_401.
      split; [now left|]. split; [|now left]. right. now exists i.
    + rewrite informUserOfSheetAccessError_alert by assumption.
      split; [|split; now left]. right. now exists i, status.
Qed.

(** *** No failure of a request is lost *)

Lemma with_callbacks_run (events : list Event) (p : Page) :
  Forall with_callbacks (ajax p) -> Forall with_callbacks (ajax (run env events p)).
Proof.
  apply (run_preserves env (fun q => Forall with_callbacks (ajax q))).
  - intros q H. cbn [ajax createOnClick jquery_ajax set_ajax].
    apply Forall_app. split; [assumption|]. apply Forall_singleton. now split.
  - now intros row q.
  - intros row q H. cbn [ajax syncSheetOnClick jquery_ajax set_ajax].
    apply Forall_app. split; [assumption|]. apply Forall_singleton. now split.
  - intros row q H. cbn [ajax deleteSheetOnClick jquery_ajax set_ajax].
    apply Forall_app. split; [assumption|]. apply Forall_singleton. now split.
  - intros i q H. cbn [ajax set_ajax]. now apply Forall_delete.
  - intros m q H. now rewrite createOnClick_success_page.
  - intros row datetime title q H. now rewrite syncSheetOnClick_success_page.
  - intros row q H. now rewrite deleteSheetOnClick_success_page.
  - intros status q H. unfold informUserOfSheetAccessError.
    now destruct (status =? 401), (status =? 403), (status =? 404), (status =? 400).
  - intros _ q H. unfold ready, processNotificationsOnLoadOnDelete. cbv zeta.
    match goal with |- context [if ?b then _ else _] => destruct b end; exact H.
Qed.

(** X12. On the sheet list page no failure is lost: in every run, every
    request in flight has the error callback, so when any of them fails
    the user gets the one alert of the status (or, for 401, the reload),
    the request leaves the list of requests in flight, and the rows, the
    table and the banners stay as they are. *)
Theorem every_failure_is_surfaced (rows : list Markup) (add edit_sync : bool)
    (events : list Event) (i : nat) (status : Z) :
  let p := run env events (served rows add edit_sync) in
  (i < length (ajax p))%nat ->
  let p' := step env (Fail i status) p in
  (status ≠ 401 ->
     alerts p' = alerts p ++ [spec_message status] /\ reloads p' = reloads p) /\
  (status = 401 -> alerts p' = alerts p /\ reloads p' = S (reloads p)) /\
  S (length (ajax p')) = length (ajax p) /\
  displayed p' = displayed p.
Proof.
  intros p Hi p'.
  assert (Forall with_callbacks (ajax p)) as Hall
    by (apply with_callbacks_run; apply Forall_nil_2).
  destruct (lookup_lt_is_Some_2 (ajax p) i Hi) as [req Hreq].
  destruct (proj1 (Forall_lookup _ _) Hall i req Hreq) as [Herr _].
  assert (p' = informUserOfSheetAccessError status (set_ajax (delete i (ajax p)) p)) as E
    by (unfold p'; now rewrite (step_Fail env i status p req Hreq Herr)).
  assert (S (length (delete i (ajax p))) = length (ajax p)) as Hlen.
  { rewrite length_delete by (now exists req). lia. }
  rewrite E. split; [|split; [|split]].
  - intros Hne. now rewrite informUserOfSheetAccessError_alert by assumption.
  - intros ->. now rewrite informUserOfSheetAccessError_401.
  - unfold informUserOfSheetAccessError.
    now destruct (status =? 401), (status =? 403), (status =? 404), (status =? 400).
  - now rewrite informUserOfSheetAccessError_displayed.
Qed.

End Lifetime.

(** * Further properties of the settings page *)

Section SettingsRuns.
Import JQuery Settings.

Variable env : Env.

Lemma complete_page (i : nat) (o : Outcome) (p : Page) :
  complete i o p =
  match ajax p !! i with
  | Some _ => mkPage (notify p) (submit_button p) (cancel_button p) (console p)
                (delete i (ajax p)) (location p)
  | None => p
  end.
Proof.
  unfold complete. destruct (ajax p !! i) as [req|]; [|reflexivity]. cbv zeta.
  now destruct (match o with Succeeded => success req | Failed _ => error req end) as [[]|].
Qed.

Lemma settings_trigger_preserves (P : Page -> Prop) (handler : Page -> Page) :
  (forall s, P s -> P (handler s)) ->
  forall bound s, P s -> P (trigger bound handler s).
Proof.
  intros H bound. induction bound as [|k IH]; intros s Hs; cbn [trigger]; auto.
Qed.

Lemma settings_step_preserves (P : Page -> Prop) (e : Event) (p : Page) :
  (e = Ready -> P (ready p)) ->
  (forall q, P q ->
     P (mkPage (negb (notify q)) (submit_button q) (cancel_button q) (console q)
          (ajax q) (location q))) ->
  (e = ClickSubmit -> forall q, P q -> P (submitOnClick env q)) ->
  (forall q, P q -> P (cancelOnClick env q)) ->
  (forall i q, P q ->
     P (mkPage (notify q) (submit_button q) (cancel_button q) (console q)
          (delete i (ajax q)) (location q))) ->
  P p -> P (step env e p).
Proof.
  intros Hready Htoggle Hsubmit Hcancel Hdone Hp.
  destruct e as [| | | |i o]; cbn [step].
  - now apply Hready.
  - now apply Htoggle.
  - apply (settings_trigger_preserves P); auto.
  - apply (settings_trigger_preserves P); auto.
  - rewrite complete_page. destruct (ajax p !! i); auto.
Qed.

Lemma settings_run_preserves (P : Page -> Prop) (events : list Event) :
  (Ready ∈ events -> forall q, P q -> P (ready q)) ->
  (forall q, P q ->
     P (mkPage (negb (notify q)) (submit_button q) (cancel_button q) (console q)
          (ajax q) (location q))) ->
  (ClickSubmit ∈ events -> forall q, P q -> P (submitOnClick env q)) ->
  (forall q, P q -> P (cancelOnClick env q)) ->
  (forall i q, P q ->
     P (mkPage (notify q) (submit_button q) (cancel_button q) (console q)
          (delete i (ajax q)) (location q))) ->
  forall p, P p -> P (run env events p).
Proof.
  intros Hready Htoggle Hsubmit Hcancel Hdone. unfold run.
  induction events as [|e events IH]; intros p Hp; cbn [foldl]; [assumption|].
  apply IH.
  - intros Hin. apply Hready. apply elem_of_cons. now right.
  - intros Hin. apply Hsubmit. apply elem_of_cons. now right.
  - apply settings_step_preserves; try assumption.
    + intros ->. apply Hready; [apply elem_of_cons; now left|assumption].
    + intros ->. apply Hsubmit. apply elem_of_cons. now left.
Qed.

(** X13. On the settings page a request is sent by a submit click and by
    nothing else: in every run, each request in flight is the POST of
    [submitOnClick] (the settings address, a JSON body with the one member
    [notify], no callback), and a run without a submit click, or one in
    which the document never became ready, has sent nothing. *)
Theorem settings_requests_only_from_submit (checked : bool) (events : list Event) :
  let p := run env events (served checked) in
  Forall (fun req => exists b, req = settings_post env b) (ajax p) /\
  (ClickSubmit ∉ events -> ajax p = [] ) /\
  (Ready ∉ events -> ajax p = [] /\ location p = None).
Proof.
  intros p. subst p. split; [|split].
  - apply (settings_run_preserves
             (fun q => Forall (fun req => exists b, req = settings_post env b) (ajax q))).
    + now intros _ q H.
    + now intros q H.
    + intros _ q H. cbn. apply Forall_app. split; [assumption|].
      apply Forall_singleton. now exists (notify q).
    + now intros q H.
    + intros i q H. cbn. now apply Forall_delete.
    + apply Forall_nil_2.
  - intros Hno. apply (settings_run_preserves (fun q => ajax q = [])).
    + now intros _ q H.
    + now intros q H.
    + intros Hin. contradiction.
    + now intros q H.
    + intros i q H. cbn in *. now rewrite H.
    + reflexivity.
  - intros Hno.
    assert (forall q, submit_button q = 0%nat -> cancel_button q = 0%nat ->
              ajax q = [] /\ location q = None ->
              ajax (run env events q) = [] /\ location (run env events q) = None) as H.
    { unfold run. induction events as [|e events IH]; intros q Hs Hc Hq; cbn [foldl];
        [assumption|].
      apply not_elem_of_cons in Hno as [Hne Hno].
      destruct e as [| | | |i o]; cbn [step]; [congruence| | | |].
      - now apply IH.
      - rewrite Hs. now apply IH.
      - rewrite Hc. now apply IH.
      - rewrite complete_page. destruct Hq as [Ha Hl]. rewrite Ha. now apply IH. }
    now apply H.
Qed.

Lemma buttons_bound_once (checked : bool) (events : list Event) :
  Ready ∉ events ->
  submit_button (run env (Ready :: events) (served checked)) = 1%nat /\
  cancel_button (run env (Ready :: events) (served checked)) = 1%nat.
Proof.
  intros Hno. change (run env (Ready :: events) (served checked))
    with (run env events (ready (served checked))).
  apply (settings_run_preserves
           (fun q => submit_button q = 1%nat /\ cancel_button q = 1%nat)).
  - intros Hin. contradiction.
  - now intros q H.
  - now intros _ q H.
  - now intros q H.
  - now intros i q H.
  - now split.
Qed.

Lemma submit_clicks (k : nat) :
  forall p, submit_button p = 1%nat ->
    run env (repeat ClickSubmit k) p
    = mkPage (notify p) (submit_button p) (cancel_button p)
        (console p ++ concat (repeat ["Going"%string; string_of_bool (notify p)] k))
        (ajax p ++ repeat (settings_post env (notify p)) k)
        (match k with O => location p | S _ => Some (url_index env) end).
Proof.
  unfold run. induction k as [|k IH]; intros p Hp; cbn [repeat foldl concat].
  - rewrite !app_nil_r. now destruct p.
  - cbn [step]. rewrite Hp. cbn [trigger].
    rewrite IH by exact Hp.
    unfold submitOnClick, set_location, jquery_ajax, console_log. cbv zeta.
    cbn [notify submit_button cancel_button console ajax location].
    f_equal.
    all: try (now destruct k).
    + now rewrite <- !app_assoc.
    + now rewrite <- app_assoc.
Qed.

(** X14. Once the document is ready, in every run of the settings page
    each click on submit runs [submitOnClick] exactly once and each click
    on cancel runs [cancelOnClick] exactly once: a submit click adds
    exactly one request, the POST of the checkbox state at that moment,
    and leaves the requests already in flight and the checkbox as they
    are.  Nothing stops a second submission: [k] clicks in a row send [k]
    such requests. *)
Theorem submit_click_sends_one_post (checked : bool) (events : list Event) :
  Ready ∉ events ->
  let p := run env (Ready :: events) (served checked) in
  step env ClickSubmit p = submitOnClick env p /\
  step env ClickCancel p = cancelOnClick env p /\
  ajax (step env ClickSubmit p) = ajax p ++ [settings_post env (notify p)] /\
  notify (step env ClickSubmit p) = notify p /\
  (forall k, ajax (run env (repeat ClickSubmit k) p)
             = ajax p ++ repeat (settings_post env (notify p)) k).
Proof.
  intros Hno p. destruct (buttons_bound_once checked events Hno) as [Hs Hc].
  fold p in Hs, Hc. cbn [step]. rewrite Hs, Hc. cbn [trigger].
  repeat split. intros k. now rewrite submit_clicks.
Qed.

End SettingsRuns.

(** ** The further properties on concrete pages *)

Section MoreExamples.
Import JQuery Index.

Lemma example_events_after_ready :
  Ready ∉ [ClickCreate; Done 0 (CreateData example_markup)].
Proof.
  intros H. apply elem_of_cons in H as [H|H]; [discriminate|].
  apply elem_of_cons in H as [H|H]; [discriminate|]. now apply elem_of_nil in H.
Defined.

(** X1 on a first visit with one sheet created. *)
Lemma handlers_bound_once_witness :
  (Ready ∉ [ClickCreate; Done 0 (CreateData example_markup)]) /\
  NoDup (tbody (run example_env [Ready; ClickCreate; Done 0 (CreateData example_markup)]
                  (served [] false false))) /\
  create_sheet_button
    (run example_env [Ready; ClickCreate; Done 0 (CreateData example_markup)]
       (served [] false false)) = 1%nat.
Proof.
  split; [exact example_events_after_ready|].
  destruct (handlers_bound_once example_env [] false false
              [ClickCreate; Done 0 (CreateData example_markup)]
              example_events_after_ready) as (H1 & _ & H3).
  split; [exact H1|exact H3].
Defined.

(** X2 on the same page: the visit button of its row. *)
Lemma visit_click_opens_one_window_witness :
  (0%nat ∈ tbody (run example_env [Ready; ClickCreate; Done 0 (CreateData example_markup)]
                    (served [] false false))) /\
  exists r,
    elements (run example_env [Ready; ClickCreate; Done 0 (CreateData example_markup)]
                (served [] false false)) !! 0%nat = Some r /\
    step example_env (ClickVisit 0)
      (run example_env [Ready; ClickCreate; Done 0 (CreateData example_markup)]
         (served [] false false))
    = window_open ("https://docs.google.com/spreadsheets/d/" ++ ssheet_id r) "_blank"
        (run example_env [Ready; ClickCreate; Done 0 (CreateData example_markup)]
           (served [] false false)).
Proof.
  assert (0%nat ∈ tbody (run example_env
                          [Ready; ClickCreate; Done 0 (CreateData example_markup)]
                          (served [] false false))) as H
    by (vm_compute; apply elem_of_cons; now left).
  split; [exact H|].
  exact (visit_click_opens_one_window example_env [] false false
           [ClickCreate; Done 0 (CreateData example_markup)] 0%nat
           example_events_after_ready H).
Defined.

(** X3 on the same page: the sync button of its row and the create
    button. *)
Lemma click_sends_one_request_witness :
  (0%nat ∈ tbody (run example_env [Ready; ClickCreate; Done 0 (CreateData example_markup)]
                    (served [] false false))) /\
  step example_env ClickCreate
    (run example_env [Ready; ClickCreate; Done 0 (CreateData example_markup)]
       (served [] false false))
  = jquery_ajax
      (mkAjax "GET" (url_create example_env) None None (Some "json"%string)
         (Some createSuccess) (Some accessError))
      (run example_env [Ready; ClickCreate; Done 0 (CreateData example_markup)]
         (served [] false false)).
Proof.
  assert (0%nat ∈ tbody (run example_env
                          [Ready; ClickCreate; Done 0 (CreateData example_markup)]
                          (served [] false false))) as H
    by (vm_compute; apply elem_of_cons; now left).
  split; [exact H|].
  destruct (click_sends_one_request example_env [] false false
              [ClickCreate; Done 0 (CreateData example_markup)] 0%nat
              example_events_after_ready H) as (r & _ & _ & _ & Hc).
  exact Hc.
Defined.

(** X5 on a page served with one sheet, through a sync that renames it. *)
Lemma ssheet_id_never_changes_witness :
  elements (served [example_markup] false false) !! 0%nat = Some (element example_markup) /\
  exists r',
    elements (run example_env
                [Ready; ClickSync 0;
                 Done 0 (SyncData "01-05-2024 04:15" (Some "Tech"%string))]
                (served [example_markup] false false)) !! 0%nat = Some r' /\
    ssheet_id r' = ssheet_id (element example_markup).
Proof.
  split; [reflexivity|].
  exact (ssheet_id_never_changes example_env
           [Ready; ClickSync 0; Done 0 (SyncData "01-05-2024 04:15" (Some "Tech"%string))]
           (served [example_markup] false false) 0%nat (element example_markup) eq_refl).
Defined.

(** X10 on a page served with one sheet: a second one created, then
    deleted. *)
Lemma create_then_delete_restores_table_witness :
  (forall n, n ∈ tbody (served [example_markup] false false) ->
             (n < length (elements (served [example_markup] false false)))%nat) /\
  tbody (deleteSheetOnClick_success (length (elements (served [example_markup] false false)))
           (createOnClick_success example_env example_markup'
              (served [example_markup] false false)))
  = tbody (served [example_markup] false false).
Proof.
  assert (forall n, n ∈ tbody (served [example_markup] false false) ->
                    (n < length (elements (served [example_markup] false false)))%nat) as H.
  { intros n Hn. change (n ∈ [0%nat]) in Hn. apply list_elem_of_singleton in Hn.
    subst n. cbn. lia. }
  split; [exact H|].
  exact (proj1 (create_then_delete_restores_table example_env example_markup'
                  (served [example_markup] false false) H)).
Defined.

(** X12 on a page with a delete in flight, refused with status 404. *)
Lemma every_failure_is_surfaced_witness :
  (0 < length (ajax (run example_env [Ready; ClickDelete 1]
                       (served [example_markup; example_markup'] false false))))%nat /\
  alerts (step example_env (Fail 0 404)
            (run example_env [Ready; ClickDelete 1]
               (served [example_markup; example_markup'] false false)))
  = alerts (run example_env [Ready; ClickDelete 1]
              (served [example_markup; example_markup'] false false))
    ++ [spec_message 404].
Proof.
  assert (0 < length (ajax (run example_env [Ready; ClickDelete 1]
                              (served [example_markup; example_markup'] false false))))%nat
    as H by (vm_compute; lia).
  split; [exact H|].
  destruct (every_failure_is_surfaced example_env [example_markup; example_markup']
              false false [Ready; ClickDelete 1] 0%nat 404 H) as (Ha & _).
  exact (proj1 (Ha ltac:(discriminate))).
Defined.

(** X14 on a settings page whose box is checked before the click. *)
Lemma submit_click_sends_one_post_witness :
  (Settings.Ready ∉ [Settings.Toggle]) /\
  Settings.ajax
    (Settings.step Settings.example_env Settings.ClickSubmit
       (Settings.run Settings.example_env [Settings.Ready; Settings.Toggle]
          (Settings.served false)))
  = Settings.ajax
      (Settings.run Settings.example_env [Settings.Ready; Settings.Toggle]
         (Settings.served false))
    ++ [Settings.settings_post Settings.example_env
          (Settings.notify
             (Settings.run Settings.example_env [Settings.Ready; Settings.Toggle]
                (Settings.served false)))].
Proof.
  assert (Settings.Ready ∉ [Settings.Toggle]) as H.
  { intros H. apply elem_of_cons in H as [H|H]; [discriminate|]. now apply elem_of_nil in H. }
  split; [exact H|].
  destruct (submit_click_sends_one_post Settings.example_env false [Settings.Toggle] H)
    as (_ & _ & Ha & _).
  exact Ha.
Defined.

End MoreExamples.
